(** * NEUST Museum API: request handlers over a document store

    A shallow embedding of [src/main.py] and [src/schemas.py].

    - Python [str] values are sequences of Unicode code points ([pystr]).
    - Handlers that raise are functions into [result]; the exception raised
      is the error value.
    - The module-level handle [db] is an explicit argument of type
      [option database]; handlers that write return the new store. *)

From Stdlib Require Import String Ascii ZArith List Bool Lia.
#[local] Set Warnings "-register-all".
Import ListNotations.
Local Open Scope Z_scope.

(** ** Python values *)

(** A Python [str]: its code points, in order. *)
Definition pystr := list Z.

(** An ASCII literal of the source, as a [pystr]. *)
Definition u (s : string) : pystr :=
  map (fun a => Z.of_N (N_of_ascii a)) (list_ascii_of_string s).

Fixpoint pystr_eqb (s t : pystr) : bool :=
  match s, t with
  | [], [] => true
  | x :: s', y :: t' => (x =? y) && pystr_eqb s' t'
  | _, _ => false
  end.

(** Python truthiness of a [str]: non-empty. *)
Definition truthy (s : pystr) : bool :=
  match s with [] => false | _ :: _ => true end.

(** ** Exceptions and results *)

Inductive exn :=
| HTTPException (status_code : Z) (detail : string)
| ValidationError (field : string)
| UnicodeEncodeError
| InvalidId
| OperationFailure
| PyMongoError (message : pystr).

Inductive result (A : Type) :=
| Ok (a : A)
| Raise (e : exn).
Arguments Ok {A} a.
Arguments Raise {A} e.

Definition bind {A B} (r : result A) (k : A -> result B) : result B :=
  match r with
  | Ok a => k a
  | Raise e => Raise e
  end.

Notation "'let*' x ':=' r 'in' k" := (bind r (fun x => k))
  (at level 10, x name, r at level 100, k at level 200).

(** [try: body except Exception as e: handler(e)] *)
Definition try_except {A} (body : result A) (handler : exn -> result A) : result A :=
  match body with
  | Ok a => Ok a
  | Raise e => handler e
  end.

(** [[f(x) for x in l]], stopping at the first exception. *)
Fixpoint traverse {A B} (f : A -> result B) (l : list A) : result (list B) :=
  match l with
  | [] => Ok []
  | x :: l' =>
      let* y := f x in
      let* ys := traverse f l' in
      Ok (y :: ys)
  end.

(** ** Bytes and hexadecimal *)

(** The digit of [bytes.hex()] for a nibble: [0-9a-f]. *)
Definition hexdigit (n : Z) : Z :=
  if n <? 10 then 48 + n else 87 + n.

(** [bytes.hex()] *)
Definition hex (bs : list Z) : pystr :=
  flat_map (fun b => [hexdigit (b / 16); hexdigit (b mod 16)]) bs.

Definition is_lower_hex (c : Z) : bool :=
  ((48 <=? c) && (c <=? 57)) || ((97 <=? c) && (c <=? 102)).

(** The value of a hexadecimal digit, upper or lower case. *)
Definition hexval (c : Z) : option Z :=
  if (48 <=? c) && (c <=? 57) then Some (c - 48)
  else if (97 <=? c) && (c <=? 102) then Some (c - 87)
  else if (65 <=? c) && (c <=? 70) then Some (c - 55)
  else None.

(** ASCII whitespace, as [bytes.fromhex] skips it. *)
Definition is_space (c : Z) : bool :=
  (c =? 32) || ((9 <=? c) && (c <=? 13)).

(** [bytes.fromhex(s)]: pairs of hexadecimal digits, with ASCII whitespace
    allowed between pairs; [None] is [ValueError]. *)
Fixpoint fromhex (s : pystr) : option (list Z) :=
  match s with
  | [] => Some []
  | c :: s' =>
      if is_space c then fromhex s'
      else
        match hexval c, s' with
        | Some hi, d :: s'' =>
            match hexval d, fromhex s'' with
            | Some lo, Some bs => Some (16 * hi + lo :: bs)
            | _, _ => None
            end
        | _, _ => None
        end
  end.

(** [str.encode("utf-8")]: lone surrogates cannot be encoded. *)
Definition utf8_char (c : Z) : option (list Z) :=
  if c <? 0 then None
  else if c <? 128 then Some [c]
  else if c <? 2048 then
    Some [Z.lor 192 (Z.shiftr c 6); Z.lor 128 (Z.land c 63)]
  else if c <? 65536 then
    if (55296 <=? c) && (c <=? 57343) then None
    else Some [Z.lor 224 (Z.shiftr c 12);
               Z.lor 128 (Z.land (Z.shiftr c 6) 63);
               Z.lor 128 (Z.land c 63)]
  else if c <? 1114112 then
    Some [Z.lor 240 (Z.shiftr c 18);
          Z.lor 128 (Z.land (Z.shiftr c 12) 63);
          Z.lor 128 (Z.land (Z.shiftr c 6) 63);
          Z.lor 128 (Z.land c 63)]
  else None.

Fixpoint encode_utf8 (s : pystr) : option (list Z) :=
  match s with
  | [] => Some []
  | c :: s' =>
      match utf8_char c, encode_utf8 s' with
      | Some bs, Some rest => Some (bs ++ rest)
      | _, _ => None
      end
  end.

(** One decoded character: [c] counts only if [bs] is its own encoding, which
    rules out stray continuation bytes, overlong forms, surrogates and code
    points past U+10FFFF. *)
Definition decoded (bs : list Z) (c : Z) (rest : option pystr) : option pystr :=
  match utf8_char c, rest with
  | Some bs', Some s => if pystr_eqb bs' bs then Some (c :: s) else None
  | _, _ => None
  end.

(** [bytes.decode("utf-8")]: [None] is [UnicodeDecodeError]. *)
Fixpoint decode_utf8 (bs : list Z) : option pystr :=
  match bs with
  | [] => Some []
  | b0 :: r0 =>
      if b0 <? 128 then decoded [b0] b0 (decode_utf8 r0)
      else if b0 <? 224 then
        match r0 with
        | b1 :: r1 =>
            decoded [b0; b1]
              (Z.lor (Z.shiftl (Z.land b0 31) 6) (Z.land b1 63))
              (decode_utf8 r1)
        | _ => None
        end
      else if b0 <? 240 then
        match r0 with
        | b1 :: b2 :: r2 =>
            decoded [b0; b1; b2]
              (Z.lor (Z.shiftl (Z.land b0 15) 12)
                 (Z.lor (Z.shiftl (Z.land b1 63) 6) (Z.land b2 63)))
              (decode_utf8 r2)
        | _ => None
        end
      else
        match r0 with
        | b1 :: b2 :: b3 :: r3 =>
            decoded [b0; b1; b2; b3]
              (Z.lor (Z.shiftl (Z.land b0 7) 18)
                 (Z.lor (Z.shiftl (Z.land b1 63) 12)
                    (Z.lor (Z.shiftl (Z.land b2 63) 6) (Z.land b3 63))))
              (decode_utf8 r3)
        | _ => None
        end
  end.

(** ** SHA-256 (FIPS 180-4), as [hashlib.sha256] computes it *)

Module SHA256.

Definition wrap (x : Z) : Z := x mod 2 ^ 32.
Definition add32 (x y : Z) : Z := wrap (x + y).
Definition rotr (n x : Z) : Z :=
  Z.lor (Z.shiftr x n) (wrap (Z.shiftl x (32 - n))).
Definition shr (n x : Z) : Z := Z.shiftr x n.

Definition Ch (x y z : Z) : Z :=
  Z.lxor (Z.land x y) (Z.land (Z.lxor x 4294967295) z).
Definition Maj (x y z : Z) : Z :=
  Z.lxor (Z.lxor (Z.land x y) (Z.land x z)) (Z.land y z).
Definition Sigma0 (x : Z) : Z := Z.lxor (Z.lxor (rotr 2 x) (rotr 13 x)) (rotr 22 x).
Definition Sigma1 (x : Z) : Z := Z.lxor (Z.lxor (rotr 6 x) (rotr 11 x)) (rotr 25 x).
Definition sigma0 (x : Z) : Z := Z.lxor (Z.lxor (rotr 7 x) (rotr 18 x)) (shr 3 x).
Definition sigma1 (x : Z) : Z := Z.lxor (Z.lxor (rotr 17 x) (rotr 19 x)) (shr 10 x).

(** The largest [r] below [acc + 2 ^ bits] with [r ^ 3 <= n], found bit by
    bit; [acc] is a multiple of [2 ^ bits] with [acc ^ 3 <= n]. *)
Fixpoint cube_root (bits : nat) (n acc : Z) : Z :=
match bits with
| O => acc
| S b =>
    let c := acc + 2 ^ Z.of_nat b in
    if c * c * c <=? n then cube_root b n c else cube_root b n acc
end.

Definition primes : list Z :=
[2; 3; 5; 7; 11; 13; 17; 19; 23; 29; 31; 37; 41; 43; 47; 53; 59; 61; 67; 71;
 73; 79; 83; 89; 97; 101; 103; 107; 109; 113; 127; 131; 137; 139; 149; 151;
 157; 163; 167; 173; 179; 181; 191; 193; 197; 199; 211; 223; 227; 229; 233;
 239; 241; 251; 257; 263; 269; 271; 277; 281; 283; 293; 307; 311].

(** The round constants: the first 32 bits of the fractional parts of the
    cube roots of the first 64 primes. *)
Definition K : list Z := Eval vm_compute in
  map (fun p => wrap (cube_root 35 (p * 2 ^ 96) 0)) primes.

Record regs := mkRegs { ra : Z; rb : Z; rc : Z; rd : Z; re : Z; rf : Z; rg : Z; rh : Z }.

(** The initial hash value: the first 32 bits of the fractional parts of
    the square roots of the first 8 primes. *)
Definition frac_sqrt (p : Z) : Z := wrap (Z.sqrt (p * 2 ^ 64)).

Definition H0 : regs := Eval vm_compute in
  mkRegs (frac_sqrt 2) (frac_sqrt 3) (frac_sqrt 5) (frac_sqrt 7)
         (frac_sqrt 11) (frac_sqrt 13) (frac_sqrt 17) (frac_sqrt 19).

(** Message padding: a 1 bit, zeros, and the bit length on 64 bits. *)
Definition be_bytes (n : nat) (x : Z) : list Z :=
  map (fun i => (Z.shiftr x (8 * Z.of_nat i)) mod 256) (rev (seq 0 n)).

Definition pad (msg : list Z) : list Z :=
  let len := Z.of_nat (length msg) in
  msg ++ [128] ++ repeat 0 (Z.to_nat ((55 - len) mod 64)) ++ be_bytes 8 (8 * len).

Fixpoint be_word (bs : list Z) (acc : Z) : Z :=
  match bs with
  | [] => acc
  | b :: bs' => be_word bs' (256 * acc + b)
  end.

(** The 16 big-endian words of a 64-byte block. *)
Fixpoint words (n : nat) (bs : list Z) : list Z :=
  match n with
  | O => []
  | S n' => be_word (firstn 4 bs) 0 :: words n' (skipn 4 bs)
  end.

(** Message schedule: [n] more words after those of [w]. *)
Fixpoint extend (n : nat) (w : list Z) : list Z :=
  match n with
  | O => w
  | S n' =>
      let t := length w in
      let x := add32 (add32 (sigma1 (nth (t - 2) w 0)) (nth (t - 7) w 0))
                     (add32 (sigma0 (nth (t - 15) w 0)) (nth (t - 16) w 0)) in
      extend n' (w ++ [x])
  end.

Definition round (r : regs) (kw : Z * Z) : regs :=
  let t1 := add32 (add32 (add32 (rh r) (Sigma1 (re r)))
                         (add32 (Ch (re r) (rf r) (rg r)) (fst kw))) (snd kw) in
  let t2 := add32 (Sigma0 (ra r)) (Maj (ra r) (rb r) (rc r)) in
  mkRegs (add32 t1 t2) (ra r) (rb r) (rc r) (add32 (rd r) t1) (re r) (rf r) (rg r).

Definition compress (h : regs) (block : list Z) : regs :=
  let w := extend 48 (words 16 block) in
  let r := fold_left round (combine K w) h in
  mkRegs (add32 (ra h) (ra r)) (add32 (rb h) (rb r))
         (add32 (rc h) (rc r)) (add32 (rd h) (rd r))
         (add32 (re h) (re r)) (add32 (rf h) (rf r))
         (add32 (rg h) (rg r)) (add32 (rh h) (rh r)).

Fixpoint blocks (n : nat) (h : regs) (bs : list Z) : regs :=
  match n with
  | O => h
  | S n' => blocks n' (compress h (firstn 64 bs)) (skipn 64 bs)
  end.

(** [hashlib.sha256(msg).digest()] *)
Definition digest (msg : list Z) : list Z :=
  let p := pad msg in
  let h := blocks (length p / 64) H0 p in
  flat_map (be_bytes 4)
    [ra h; rb h; rc h; rd h; re h; rf h; rg h; rh h].

(** [hashlib.sha256(msg).hexdigest()] *)
Definition hexdigest (msg : list Z) : pystr := hex (digest msg).

End SHA256.

(** [hash_password], src/main.py:142 *)
Definition hash_password (raw : pystr) : result pystr :=
  match encode_utf8 raw with
  | Some bs => Ok (SHA256.hexdigest bs)
  | None => Raise UnicodeEncodeError
  end.

(** ** Stored documents *)

(** A [bson.ObjectId]: its bytes. *)
Definition ObjectId := list Z.

(** [str(oid)] *)
Definition ObjectId_str (o : ObjectId) : pystr := hex o.

(** [ObjectId(s)] for a [str] argument: 24 characters that [bytes.fromhex]
    accepts, [InvalidId] otherwise. *)
Definition ObjectId_of_str (s : pystr) : result ObjectId :=
  if (length s =? 24)%nat then
    match fromhex s with
    | Some bs => Ok bs
    | None => Raise InvalidId
    end
  else Raise InvalidId.

Inductive value :=
| VNull
| VBool (b : bool)
| VInt (z : Z)
| VStr (s : pystr)
| VOid (o : ObjectId)
| VList (l : list value)
| VBinary (bs : list Z).   (* BSON binary data, read back as [bytes] *)

Fixpoint value_eqb (a b : value) : bool :=
  match a, b with
  | VNull, VNull => true
  | VBool x, VBool y => Bool.eqb x y
  | VInt x, VInt y => x =? y
  | VStr x, VStr y => pystr_eqb x y
  | VOid x, VOid y => pystr_eqb x y
  | VList x, VList y =>
      (fix go (l1 l2 : list value) : bool :=
         match l1, l2 with
         | [], [] => true
         | a1 :: r1, b1 :: r2 => value_eqb a1 b1 && go r1 r2
         | _, _ => false
         end) x y
  | VBinary x, VBinary y => pystr_eqb x y
  | _, _ => false
  end.

(** A stored document: the [_id] the storage accessor assigned, and the
    other fields in order. *)
Record document := mkDoc { _id : ObjectId; fields : list (string * value) }.

Fixpoint assoc {A} (k : string) (l : list (string * A)) : option A :=
  match l with
  | [] => None
  | (k', v) :: l' => if String.eqb k k' then Some v else assoc k l'
  end.

(** [d.get(k)]: [None] when the key is absent. *)
Definition doc_get (d : document) (k : string) : value :=
  if String.eqb k "_id" then VOid (_id d)
  else match assoc k (fields d) with
       | Some v => v
       | None => VNull
       end.

(** ** Query filters of the storage accessor *)

Inductive cond :=
| CEq (v : value)                      (* {field: v} *)
| CRegex (pattern options : pystr).    (* {field: {"$regex": p, "$options": o}} *)

Inductive clause :=
| Field (name : string) (c : cond)
| Or (alternatives : list (string * cond)).   (* "$or": [{f1: c1}, {f2: c2}, ...] *)

(** A filter dict: its entries, all of which must hold. *)
Definition filter_dict := list clause.

(** Equality on a field: the value itself, or an element of an array. *)
Definition matches_eq (v fv : value) : bool :=
  value_eqb fv v
  || match fv with
     | VList l => existsb (fun x => value_eqb x v) l
     | _ => false
     end.

(** A regular expression on a field: the text itself, or an element of an
    array of texts. *)
Definition matches_regex (m : pystr -> bool) (fv : value) : bool :=
  match fv with
  | VStr s => m s
  | VList l => existsb (fun x => match x with VStr s => m s | _ => false end) l
  | _ => false
  end.

Record database := mkDb {
  db_name : pystr;
  collections : list (string * list document)
}.

(** [db[c]]: a collection never written to is empty. *)
Definition collection (d : database) (c : string) : list document :=
  match assoc c (collections d) with
  | Some docs => docs
  | None => []
  end.

Fixpoint set_collection (c : string) (docs : list document)
    (l : list (string * list document)) : list (string * list document) :=
  match l with
  | [] => [(c, docs)]
  | (c', ds) :: l' =>
      if String.eqb c c' then (c, docs) :: l' else (c', ds) :: set_collection c docs l'
  end.

(** [db[c].insert_one(doc)] *)
Definition insert_one (d : database) (c : string) (doc : document) : database :=
  mkDb (db_name d) (set_collection c (collection d c ++ [doc]) (collections d)).

Section Accessor.

(** The regular-expression engine of the storage accessor: a pattern and
    its options compile to a search predicate on texts, or are rejected. *)
Variable regex_compile : pystr -> pystr -> option (pystr -> bool).

Definition compile_cond (c : cond) : option (value -> bool) :=
  match c with
  | CEq v => Some (matches_eq v)
  | CRegex p o =>
      match regex_compile p o with
      | Some m => Some (matches_regex m)
      | None => None
      end
  end.

Fixpoint compile_or (alts : list (string * cond)) : option (document -> bool) :=
  match alts with
  | [] => Some (fun _ => false)
  | (f, c) :: alts' =>
      match compile_cond c, compile_or alts' with
      | Some p, Some rest => Some (fun d => p (doc_get d f) || rest d)
      | _, _ => None
      end
  end.

Definition compile_clause (cl : clause) : option (document -> bool) :=
  match cl with
  | Field f c =>
      match compile_cond c with
      | Some p => Some (fun d => p (doc_get d f))
      | None => None
      end
  | Or alts => compile_or alts
  end.

Fixpoint compile_filter (f : filter_dict) : option (document -> bool) :=
  match f with
  | [] => Some (fun _ => true)
  | cl :: f' =>
      match compile_clause cl, compile_filter f' with
      | Some p, Some rest => Some (fun d => p d && rest d)
      | _, _ => None
      end
  end.

(** [db[c].find(f)]: the matching documents in stored order; a filter the
    accessor rejects raises. *)
Definition find (d : database) (c : string) (f : filter_dict)
  : result (list document) :=
  match compile_filter f with
  | Some p => Ok (filter p (collection d c))
  | None => Raise OperationFailure
  end.

(** [db[c].find_one(f)]: the first match, or [None]. *)
Definition find_one (d : database) (c : string) (f : filter_dict)
  : result (option document) :=
  let* docs := find d c f in
  Ok (hd_error docs).

End Accessor.

(** ** Request and response shapes (src/main.py:13-32, src/schemas.py) *)

Module SignupRequest.
Record t := mk { name : pystr; email : pystr; password : pystr }.
End SignupRequest.

Module SigninRequest.
Record t := mk { email : pystr; password : pystr }.
End SigninRequest.

Module PublicArtifact.
Record t := mk {
  id : pystr;
  title : pystr;
  description : option pystr;
  image_url : option pystr;
  period : option pystr;
  collection : option pystr;
  tags : option (list pystr)
}.
End PublicArtifact.

Module UserAccount.
Record t := mk {
  name : pystr;
  email : pystr;
  password_hash : pystr;
  role : pystr;
  is_active : bool
}.

(** The constructor call of [signup]: [role] and [is_active] take their
    defaults. *)
Definition make (name email password_hash : pystr) : t :=
  mk name email password_hash (u "user") true.

(** The fields of the account, as the document to store. *)
Definition model_dump (a : t) : list (string * value) :=
  [("name", VStr (name a)); ("email", VStr (email a));
   ("password_hash", VStr (password_hash a)); ("role", VStr (role a));
   ("is_active", VBool (is_active a))]%string.
End UserAccount.

(** The payload [signup] and [signin] return: [signin] reads name and email
    back from the stored document. *)
Module Identity.
Record t := mk { id : pystr; name : value; email : value }.
End Identity.

(** Validation of a field declared [str]: a text, or bytes that decode as
    UTF-8. *)
Definition validate_str (field : string) (v : value) : result pystr :=
  match v with
  | VStr s => Ok s
  | VBinary bs =>
      match decode_utf8 bs with
      | Some s => Ok s
      | None => Raise (ValidationError field)
      end
  | _ => Raise (ValidationError field)
  end.

(** Validation of a field declared [Optional[str]]. *)
Definition validate_opt_str (field : string) (v : value) : result (option pystr) :=
  match v with
  | VNull => Ok None
  | _ =>
      let* s := validate_str field v in
      Ok (Some s)
  end.

(** Validation of a field declared [Optional[List[str]]]. *)
Definition validate_opt_list_str (field : string) (v : value)
  : result (option (list pystr)) :=
  match v with
  | VNull => Ok None
  | VList l =>
      let* items := traverse (validate_str field) l in
      Ok (Some items)
  | _ => Raise (ValidationError field)
  end.

(** The [PublicArtifact(...)] call of [list_artifacts] and [get_artifact]
    (src/main.py:107-115 and 131-139). *)
Definition to_public (d : document) : result PublicArtifact.t :=
  let id := ObjectId_str (_id d) in
  let* title := validate_str "title" (doc_get d "title") in
  let* description := validate_opt_str "description" (doc_get d "description") in
  let* image_url := validate_opt_str "image_url" (doc_get d "image_url") in
  let* period := validate_opt_str "period" (doc_get d "period") in
  let* collection := validate_opt_str "collection" (doc_get d "collection") in
  let* tags := validate_opt_list_str "tags" (doc_get d "tags") in
  Ok (PublicArtifact.mk id title description image_url period collection tags).

(** The filter [list_artifacts] builds (src/main.py:94-102). *)
Definition build_filter (q : option pystr) (featured : option bool) : filter_dict :=
  let text :=
    match q with
    | Some q' =>
        if truthy q' then
          [Or [("title"%string, CRegex q' (u "i"));
               ("description"%string, CRegex q' (u "i"));
               ("tags"%string, CRegex q' (u "i"))]]
        else []
    | None => []
    end in
  let flag :=
    match featured with
    | Some b => [Field "featured" (CEq (VBool b))]
    | None => []
    end in
  text ++ flag.

Section Handlers.

Variable regex_compile : pystr -> pystr -> option (pystr -> bool).

(** Modelled from the spec: [get_documents] of database.py, which is not
    among the sources. Section 2 names it find-many-with-limit and section
    4.2 says it fetches at most [limit] matching documents in
    storage-native order. A negative [limit] is left unspecified there;
    here it fetches nothing. *)
Definition get_documents (d : database) (c : string) (f : filter_dict)
    (limit : Z) : result (list document) :=
  let* docs := find regex_compile d c f in
  Ok (firstn (Z.to_nat limit) docs).

(** Modelled from the spec: [create_document] of database.py, which is not
    among the sources. Section 4.3 has it insert the new account document
    and return the new id, which section 3 says the storage accessor
    assigns and clients see as text. [fresh] is the id the accessor
    assigns. *)
Definition create_document (d : database) (fresh : ObjectId) (c : string)
    (data : UserAccount.t) : pystr * database :=
  (ObjectId_str fresh, insert_one d c (mkDoc fresh (UserAccount.model_dump data))).

(** [list_artifacts], src/main.py:91 *)
Definition list_artifacts (db : option database) (q : option pystr)
    (featured : option bool) (limit : Z) : result (list PublicArtifact.t) :=
  match db with
  | None => Raise (HTTPException 500 "Database not configured")
  | Some d =>
      let filter_query := build_filter q featured in
      let* docs := get_documents d "artifact" filter_query limit in
      traverse to_public docs
  end.

(** [get_artifact], src/main.py:121 *)
Definition get_artifact (db : option database) (artifact_id : pystr)
  : result PublicArtifact.t :=
  match db with
  | None => Raise (HTTPException 500 "Database not configured")
  | Some d =>
      let* oid := try_except (ObjectId_of_str artifact_id)
                    (fun _ => Raise (HTTPException 400 "Invalid artifact id")) in
      let* doc := find_one regex_compile d "artifact" [Field "_id" (CEq (VOid oid))] in
      match doc with
      | None => Raise (HTTPException 404 "Artifact not found")
      | Some doc => to_public doc
      end
  end.

(** [signup], src/main.py:147. The second component is the store after
    the call. *)
Definition signup (db : option database) (fresh : ObjectId)
    (payload : SignupRequest.t) : result Identity.t * option database :=
  match db with
  | None => (Raise (HTTPException 500 "Database not configured"), db)
  | Some d =>
      match find_one regex_compile d "useraccount"
              [Field "email" (CEq (VStr (SignupRequest.email payload)))] with
      | Raise e => (Raise e, db)
      | Ok (Some _) => (Raise (HTTPException 400 "Email already registered"), db)
      | Ok None =>
          match hash_password (SignupRequest.password payload) with
          | Raise e => (Raise e, db)
          | Ok digest =>
              let ua := UserAccount.make (SignupRequest.name payload)
                          (SignupRequest.email payload) digest in
              let (new_id, d') := create_document d fresh "useraccount" ua in
              (Ok (Identity.mk new_id (VStr (UserAccount.name ua))
                     (VStr (UserAccount.email ua))), Some d')
          end
      end
  end.

(** [signin], src/main.py:163. [or] evaluates the digest only when an
    account was found. *)
Definition signin (db : option database) (payload : SigninRequest.t)
  : result Identity.t :=
  match db with
  | None => Raise (HTTPException 500 "Database not configured")
  | Some d =>
      let* user := find_one regex_compile d "useraccount"
                     [Field "email" (CEq (VStr (SigninRequest.email payload)))] in
      match user with
      | None => Raise (HTTPException 401 "Invalid email or password")
      | Some usr =>
          let* digest := hash_password (SigninRequest.password payload) in
          if negb (value_eqb (doc_get usr "password_hash") (VStr digest))
          then Raise (HTTPException 401 "Invalid email or password")
          else Ok (Identity.mk (ObjectId_str (_id usr)) (doc_get usr "name")
                     (doc_get usr "email"))
      end
  end.

End Handlers.

(** ** The diagnostic endpoint (src/main.py:173) *)

Module Status.
Record t := mk {
  backend : pystr;
  database : pystr;
  database_url : option pystr;
  database_name : option pystr;
  connection_status : pystr;
  collections : list pystr
}.

Definition set_database (v : pystr) (r : t) : t :=
  mk (backend r) v (database_url r) (database_name r) (connection_status r)
     (collections r).
Definition set_database_url (v : option pystr) (r : t) : t :=
  mk (backend r) (database r) v (database_name r) (connection_status r)
     (collections r).
Definition set_database_name (v : option pystr) (r : t) : t :=
  mk (backend r) (database r) (database_url r) v (connection_status r)
     (collections r).
Definition set_connection_status (v : pystr) (r : t) : t :=
  mk (backend r) (database r) (database_url r) (database_name r) v
     (collections r).
Definition set_collections (v : list pystr) (r : t) : t :=
  mk (backend r) (database r) (database_url r) (database_name r)
     (connection_status r) v.
End Status.

Definition check_mark : pystr := [9989].          (* U+2705 *)
Definition cross_mark : pystr := [10060].         (* U+274C *)
Definition warning_sign : pystr := [9888; 65039]. (* U+26A0 U+FE0F *)

Section Diagnostics.

(** [str(e)] of an exception. *)
Variable str_exn : exn -> pystr.

(** A block of statements on the response dict: the dict as the block
    leaves it, and the exception that interrupted it, if any. *)
Definition block := Status.t -> Status.t * option exn.

(** [try: body except Exception as e: handler]: the handler runs on the
    dict as the body left it. *)
Definition try_block (body : block) (handler : exn -> block) : block :=
  fun r =>
    match body r with
    | (r', None) => (r', None)
    | (r', Some e) => handler e r'
    end.

Definition seq_block (b1 b2 : block) : block :=
  fun r =>
    match b1 r with
    | (r', None) => b2 r'
    | (r', Some e) => (r', Some e)
    end.

Definition assign (f : Status.t -> Status.t) : block := fun r => (f r, None).

(** [test_database]. [list_collection_names] is what the call
    [db.list_collection_names()] does, [getenv] is [os.getenv]. A database
    handle always has a [name]. *)
Definition test_database (db : option database)
    (list_collection_names : result (list pystr))
    (getenv : string -> option pystr) : result Status.t :=
  let response :=
    Status.mk (check_mark ++ u " Running") (cross_mark ++ u " Not Available")
      None None (u "Not Connected") [] in
  let body : block :=
    try_block
      (match db with
       | Some d =>
           seq_block (assign (Status.set_database (check_mark ++ u " Available")))
          (seq_block (assign (Status.set_database_url (Some (check_mark ++ u " Configured"))))
          (seq_block (assign (Status.set_database_name (Some (db_name d))))
          (seq_block (assign (Status.set_connection_status (u "Connected")))
             (try_block
                (fun r =>
                   match list_collection_names with
                   | Raise e => (r, Some e)
                   | Ok names =>
                       seq_block (assign (Status.set_collections (firstn 10 names)))
                                 (assign (Status.set_database
                                            (check_mark ++ u " Connected & Working"))) r
                   end)
                (fun e =>
                   assign (Status.set_database
                             (warning_sign ++ u "  Connected but Error: "
                              ++ firstn 50 (str_exn e))))))))
       | None =>
           assign (Status.set_database
                     (warning_sign ++ u "  Available but not initialized"))
       end)
      (fun e =>
         assign (Status.set_database
                   (cross_mark ++ u " Error: " ++ firstn 50 (str_exn e)))) in
  let set_flag (var : string) : option pystr :=
    match getenv var with
    | Some v => if truthy v then Some (check_mark ++ u " Set")
                else Some (cross_mark ++ u " Not Set")
    | None => Some (cross_mark ++ u " Not Set")
    end in
  match body response with
  | (r, Some e) => Raise e
  | (r, None) =>
      Ok (Status.set_database_name (set_flag "DATABASE_NAME"%string)
            (Status.set_database_url (set_flag "DATABASE_URL"%string) r))
  end.

End Diagnostics.

(** ** A regular-expression engine *)

(** The part of the accessor's regular expressions (PCRE) made of literal
    characters and the wildcard [.], searched anywhere in the subject, with
    the option [i] folding ASCII letters. Every other pattern or option is
    outside this fragment and is not compiled. *)
Module PCRE.

Definition is_meta (c : Z) : bool :=
  existsb (Z.eqb c) [92; 94; 36; 46; 124; 63; 42; 43; 40; 41; 91; 93; 123; 125].

Definition literal (p : pystr) : bool :=
  forallb (fun c => (0 <=? c) && (c <? 128) && negb (is_meta c)) p.

Inductive atom := Lit (c : Z) | AnyChar.

Definition atom_of (c : Z) : option atom :=
  if c =? 46 then Some AnyChar
  else if (0 <=? c) && (c <? 128) && negb (is_meta c) then Some (Lit c)
  else None.

Fixpoint atoms (p : pystr) : option (list atom) :=
  match p with
  | [] => Some []
  | c :: p' =>
      match atom_of c, atoms p' with
      | Some a, Some rest => Some (a :: rest)
      | _, _ => None
      end
  end.

Definition lower (c : Z) : Z :=
  if (65 <=? c) && (c <=? 90) then c + 32 else c.

Definition atom_match (caseless : bool) (a : atom) (c : Z) : bool :=
  match a with
  | AnyChar => negb (c =? 10)
  | Lit p => if caseless then lower p =? lower c else p =? c
  end.

Fixpoint match_here (caseless : bool) (l : list atom) (s : pystr) : bool :=
  match l, s with
  | [], _ => true
  | a :: l', c :: s' => atom_match caseless a c && match_here caseless l' s'
  | _ :: _, [] => false
  end.

Fixpoint search (caseless : bool) (l : list atom) (s : pystr) : bool :=
  match_here caseless l s
  || match s with
     | [] => false
     | _ :: s' => search caseless l s'
     end.

Definition compile (pattern options : pystr) : option (pystr -> bool) :=
  match atoms pattern with
  | None => None
  | Some l =>
      if pystr_eqb options (u "i") then Some (search true l)
      else if pystr_eqb options [] then Some (search false l)
      else None
  end.

End PCRE.

(** ** The words of the specification *)

(** [q] occurs in [s] at the front, letter case ignored. *)
Fixpoint ci_prefix (q s : pystr) : bool :=
  match q, s with
  | [], _ => true
  | x :: q', c :: s' => (PCRE.lower x =? PCRE.lower c) && ci_prefix q' s'
  | _ :: _, [] => false
  end.

(** [s] contains [q] as a case-insensitive substring. *)
Fixpoint ci_contains (q s : pystr) : bool :=
  ci_prefix q s
  || match s with
     | [] => false
     | _ :: s' => ci_contains q s'
     end.

(** A field holds [q]: a text containing it, or a list with a text
    containing it. *)
Definition field_contains (q : pystr) (v : value) : bool :=
  match v with
  | VStr s => ci_contains q s
  | VList l => existsb (fun x => match x with VStr s => ci_contains q s | _ => false end) l
  | _ => false
  end.

(** Title, description or any tag contains [q]. *)
Definition text_hit (q : pystr) (d : document) : bool :=
  field_contains q (doc_get d "title")
  || field_contains q (doc_get d "description")
  || field_contains q (doc_get d "tags").

(** The document's [featured] field equals the flag, when one is given. *)
Definition featured_hit (featured : option bool) (d : document) : bool :=
  match featured with
  | None => true
  | Some b => matches_eq (VBool b) (doc_get d "featured")
  end.

(** A hexadecimal digit, in either case. *)
Definition hex_digit (c : Z) : bool :=
  match hexval c with
  | Some _ => true
  | None => false
  end.

(** The id format of the storage accessor: 24 hexadecimal digits. *)
Definition hex24 (s : pystr) : bool :=
  (length s =? 24)%nat && forallb hex_digit s.

(** A stored value fit for a field declared [Optional[str]]. *)
Definition opt_text (v : value) : Prop :=
  v = VNull \/ exists s, v = VStr s.

(** A stored value fit for a field declared [Optional[List[str]]]. *)
Definition opt_texts (v : value) : Prop :=
  v = VNull \/ exists l, v = VList (map VStr l).

(** The document has no field [k]. *)
Definition absent (d : document) (k : string) : Prop :=
  assoc k (fields d) = None.

(** ** The artifact schema (src/schemas.py:12) *)

Module Artifact.
Record t := mk {
  title : pystr;
  description : option pystr;
  image_url : option pystr;
  period : option pystr;
  collection : option pystr;
  tags : option (list pystr);
  featured : bool
}.

(** [Artifact(title=...)]: the optional fields default to [None], [featured]
    to [False]. *)
Definition make (title : pystr) : t := mk title None None None None None false.

Definition optional (o : option pystr) : value :=
  match o with
  | Some s => VStr s
  | None => VNull
  end.

(** The fields of the artifact, as the document to store; an unset optional
    field is stored as null. *)
Definition model_dump (a : t) : list (string * value) :=
  [("title", VStr (title a));
   ("description", optional (description a));
   ("image_url", optional (image_url a));
   ("period", optional (period a));
   ("collection", optional (collection a));
   ("tags", match tags a with
            | Some l => VList (map VStr l)
            | None => VNull
            end);
   ("featured", VBool (featured a))]%string.
End Artifact.

(** ** Store invariants *)

(** An id as the storage accessor generates it: 12 bytes. *)
Definition generated_id (o : ObjectId) : Prop :=
  length o = 12%nat /\ Forall (fun b => 0 <= b < 256) o.

(** No two documents of the collection share an [_id]. *)
Definition unique_ids (docs : list document) : Prop :=
  NoDup (map _id docs).

(** The email fields of the accounts, in stored order. *)
Definition emails (d : database) : list value :=
  map (fun doc => doc_get doc "email") (collection d "useraccount").

(** Every account has a text email and no two accounts share one. *)
Definition unique_emails (d : database) : Prop :=
  Forall (fun v => exists e, v = VStr e) (emails d) /\ NoDup (emails d).

(** The document a successful signup stores. *)
Definition account_doc (fresh : ObjectId) (name email digest : pystr) : document :=
  mkDoc fresh
    [("name", VStr name); ("email", VStr email); ("password_hash", VStr digest);
     ("role", VStr (u "user")); ("is_active", VBool true)]%string.

(** The environment variable is set to a non-empty text. *)
Definition is_set (getenv : string -> option pystr) (var : string) : bool :=
  match getenv var with
  | Some v => truthy v
  | None => false
  end.

(** An ASCII letter in upper case; other characters unchanged. *)
Definition ascii_upper (c : Z) : Z :=
  if (97 <=? c) && (c <=? 122) then c - 32 else c.

(** ** A small museum, for examples *)

Module Sample.

Definition vase_id : ObjectId := [101; 43; 18; 240; 0; 0; 0; 0; 0; 0; 0; 1].
Definition coin_id : ObjectId := [101; 43; 18; 240; 0; 0; 0; 0; 0; 0; 0; 2].
Definition scrap_id : ObjectId := [101; 43; 18; 240; 0; 0; 0; 0; 0; 0; 0; 3].
Definition user_id : ObjectId := [101; 43; 18; 240; 0; 0; 0; 0; 0; 0; 0; 9].
Definition next_id : ObjectId := [101; 43; 18; 240; 0; 0; 0; 0; 0; 0; 0; 10].

Definition vase : document :=
  mkDoc vase_id
    [("title", VStr (u "Ming Vase"));
     ("description", VStr (u "Porcelain, blue and white"));
     ("tags", VList [VStr (u "ceramic"); VStr (u "China")]);
     ("featured", VBool true)]%string.

Definition coin : document :=
  mkDoc coin_id
    [("title", VStr (u "Roman coin")); ("featured", VBool false)]%string.

(** A document stored without a title. *)
Definition scrap : document :=
  mkDoc scrap_id [("description", VStr (u "unlabelled fragment"))]%string.

(** An exhibit titled [abc]. *)
Definition abc : document :=
  mkDoc scrap_id [("title", VStr (u "abc"))]%string.

(** A registered account; its digest is that of the password [password]. *)
Definition account : document :=
  mkDoc user_id
    (UserAccount.model_dump
       (UserAccount.make (u "A") (u "a@x.com")
          (u "5e884898da28047151d0e56f8dc6292773603d0d6aabbdd62a11ef721d1542d8"))).

Definition museum : database :=
  mkDb (u "museum")
    [("artifact", [vase; coin]); ("useraccount", [account])]%string.

(** The same museum with the untitled fragment in the catalogue. *)
Definition attic : database :=
  mkDb (u "museum")
    [("artifact", [vase; scrap; coin]); ("useraccount", [account])]%string.

End Sample.

(** * Properties *)

(** ** The password digest *)

Example sha_abc :
  hash_password (u "abc")
  = Ok (u "ba7816bf8f01cfea414140de5dae2223b00361a396177a9cb410ff61f20015ad").
Proof. vm_compute. reflexivity. Qed.

Example sha_empty :
  hash_password []
  = Ok (u "e3b0c44298fc1c149afbf4c8996fb92427ae41e4649b934ca495991b7852b855").
Proof. vm_compute. reflexivity. Qed.

Example sha_constants :
  hd 0 SHA256.K = 0x428a2f98 /\ last SHA256.K 0 = 0xc67178f2
  /\ SHA256.ra SHA256.H0 = 0x6a09e667 /\ SHA256.rh SHA256.H0 = 0x5be0cd19.
Proof. repeat split. Qed.

(** Two blocks: the 56-character message of FIPS 180-4. *)
Example sha_two_blocks :
  hash_password (u "abcdbcdecdefdefgefghfghighijhijkijkljklmklmnlmnomnopnopq")
  = Ok (u "248d6a61d20638b8e5c026930c3e6039a33ce45964ff2167f6ecedd419db06c1").
Proof. vm_compute. reflexivity. Qed.

(** U+00E9, U+20AC and U+1F600 take two, three and four bytes. *)
Example utf8_widths :
  encode_utf8 [233; 8364; 128512]
  = Some [195; 169; 226; 130; 172; 240; 159; 152; 128].
Proof. reflexivity. Qed.

Example utf8_surrogate : hash_password [55296] = Raise UnicodeEncodeError.
Proof. reflexivity. Qed.

Definition is_byte (b : Z) : Prop := 0 <= b < 256.

Lemma hex_length (bs : list Z) : length (hex bs) = (2 * length bs)%nat.
Proof.
  unfold hex. induction bs as [|b bs IH]; simpl; [reflexivity|].
  rewrite IH. lia.
Qed.

Lemma hexdigit_lower (n : Z) : 0 <= n < 16 -> is_lower_hex (hexdigit n) = true.
Proof.
  intros Hn. unfold hexdigit, is_lower_hex.
  destruct (Z.ltb_spec n 10); apply orb_true_iff; [left|right];
    apply andb_true_iff; split; apply Z.leb_le; lia.
Qed.

Lemma hex_lower (bs : list Z) :
  Forall is_byte bs -> forallb is_lower_hex (hex bs) = true.
Proof.
  unfold hex. induction 1 as [|b bs Hb _ IH]; [reflexivity|].
  unfold is_byte in Hb. cbn [flat_map app forallb].
  rewrite IH, !hexdigit_lower; [reflexivity| |].
  - apply Z.mod_pos_bound. lia.
  - split; [apply Z.div_pos; lia | apply Z.div_lt_upper_bound; lia].
Qed.

Lemma be_bytes_length (n : nat) (x : Z) : length (SHA256.be_bytes n x) = n.
Proof.
  unfold SHA256.be_bytes. now rewrite length_map, length_rev, length_seq.
Qed.

Lemma be_bytes_range (n : nat) (x : Z) : Forall is_byte (SHA256.be_bytes n x).
Proof.
  unfold SHA256.be_bytes. apply Forall_map, Forall_forall. intros i _.
  apply Z.mod_pos_bound. lia.
Qed.

Lemma digest_length (msg : list Z) : length (SHA256.digest msg) = 32%nat.
Proof.
  unfold SHA256.digest. cbn [flat_map].
  rewrite !length_app, !be_bytes_length. reflexivity.
Qed.

Lemma digest_range (msg : list Z) : Forall is_byte (SHA256.digest msg).
Proof.
  unfold SHA256.digest. cbn [flat_map].
  repeat (apply Forall_app; split); auto using be_bytes_range.
Qed.

(** A Unicode scalar value: a code point that is not a surrogate. *)
Definition is_scalar (c : Z) : Prop :=
  0 <= c < 55296 \/ 57344 <= c < 1114112.

Lemma utf8_char_total (c : Z) : is_scalar c -> exists bs, utf8_char c = Some bs.
Proof.
  intros Hc. unfold utf8_char.
  destruct (Z.ltb_spec c 0); [unfold is_scalar in Hc; lia|].
  destruct (Z.ltb_spec c 128); [eauto|].
  destruct (Z.ltb_spec c 2048); [eauto|].
  destruct (Z.ltb_spec c 65536).
  - destruct (Z.leb_spec 55296 c), (Z.leb_spec c 57343); cbn [andb]; eauto.
    unfold is_scalar in Hc. lia.
  - destruct (Z.ltb_spec c 1114112); [eauto|]. unfold is_scalar in Hc. lia.
Qed.

Lemma encode_utf8_total (s : pystr) :
  Forall is_scalar s -> exists bs, encode_utf8 s = Some bs.
Proof.
  induction 1 as [|c s Hc _ [rest IH]]; cbn [encode_utf8]; [eauto|].
  destruct (utf8_char_total c Hc) as [bs Hbs]. rewrite Hbs, IH. eauto.
Qed.

Lemma hash_password_total (raw : pystr) :
  Forall is_scalar raw -> exists digest, hash_password raw = Ok digest.
Proof.
  intros Hraw. destruct (encode_utf8_total raw Hraw) as [bs Henc].
  unfold hash_password. rewrite Henc. eauto.
Qed.

(** C5. The digest of a password is the SHA-256 hash of its UTF-8 encoding,
    written as 64 lowercase hexadecimal digits. *)
Theorem hash_password_sha256 (raw : pystr) :
  Forall is_scalar raw ->
  exists bs,
    encode_utf8 raw = Some bs
    /\ hash_password raw = Ok (hex (SHA256.digest bs))
    /\ length (hex (SHA256.digest bs)) = 64%nat
    /\ forallb is_lower_hex (hex (SHA256.digest bs)) = true.
Proof.
  intros Hraw. destruct (encode_utf8_total raw Hraw) as [bs Henc].
  exists bs. split; [exact Henc|].
  unfold hash_password. rewrite Henc. split; [reflexivity|].
  split.
  - now rewrite hex_length, digest_length.
  - apply hex_lower, digest_range.
Qed.

Lemma hash_password_sha256_witness :
  Forall is_scalar (u "pw1")
  /\ exists bs,
       encode_utf8 (u "pw1") = Some bs
       /\ hash_password (u "pw1") = Ok (hex (SHA256.digest bs))
       /\ length (hex (SHA256.digest bs)) = 64%nat
       /\ forallb is_lower_hex (hex (SHA256.digest bs)) = true.
Proof.
  assert (H : Forall is_scalar (u "pw1")).
  { repeat constructor; unfold is_scalar; simpl; lia. }
  split; [exact H | apply (hash_password_sha256 (u "pw1") H)].
Defined.

(** ** Equality tests *)

Lemma pystr_eqb_refl (s : pystr) : pystr_eqb s s = true.
Proof.
  induction s as [|c s IH]; [reflexivity|].
  cbn [pystr_eqb]. now rewrite Z.eqb_refl, IH.
Qed.

Lemma pystr_eqb_eq (s t : pystr) : pystr_eqb s t = true -> s = t.
Proof.
  revert t. induction s as [|c s IH]; intros [|c' t] H; try discriminate.
  - reflexivity.
  - cbn [pystr_eqb] in H. apply andb_true_iff in H as [Hc Hs].
    apply Z.eqb_eq in Hc. apply IH in Hs. congruence.
Qed.

Lemma value_eqb_str (v : value) (s : pystr) :
  value_eqb v (VStr s) = true <-> v = VStr s.
Proof.
  split.
  - destruct v; cbn [value_eqb]; try discriminate.
    intros H. apply pystr_eqb_eq in H. congruence.
  - intros ->. cbn [value_eqb]. apply pystr_eqb_refl.
Qed.

(** ** The store *)

Lemma assoc_set_collection (c : string) (docs : list document)
    (l : list (string * list document)) :
  assoc c (set_collection c docs l) = Some docs.
Proof.
  induction l as [|[c' ds] l IH]; cbn [set_collection assoc].
  - now rewrite String.eqb_refl.
  - destruct (String.eqb c c') eqn:E; cbn [assoc].
    + now rewrite String.eqb_refl.
    + now rewrite E.
Qed.

Lemma collection_insert_one (d : database) (c : string) (doc : document) :
  collection (insert_one d c doc) c = collection d c ++ [doc].
Proof.
  unfold insert_one, collection at 1. cbn [collections].
  now rewrite assoc_set_collection.
Qed.

Section Lookup.

Variable regex_compile : pystr -> pystr -> option (pystr -> bool).

(** A lookup by equality on one field is never rejected. *)
Lemma find_one_eq (d : database) (c f : string) (v : value) :
  find_one regex_compile d c [Field f (CEq v)]
  = Ok (hd_error (filter (fun doc => matches_eq v (doc_get doc f) && true)
                    (collection d c))).
Proof. reflexivity. Qed.

Lemma hd_error_filter_none {A} (p : A -> bool) (l : list A) :
  hd_error (filter p l) = None -> filter p l = [].
Proof. destruct (filter p l); [reflexivity | discriminate]. Qed.

End Lookup.

Lemma traverse_length {A B} (f : A -> result B) (l : list A) (rs : list B) :
  traverse f l = Ok rs -> length rs = length l.
Proof.
  revert rs. induction l as [|x l IH]; intros rs H; cbn [traverse] in H.
  - injection H as <-. reflexivity.
  - destruct (f x) as [y|e]; cbn [bind] in H; [|discriminate].
    destruct (traverse f l) as [ys|e]; cbn [bind] in H; [|discriminate].
    injection H as <-. cbn [length]. f_equal. now apply IH.
Qed.

(** ** Artifact lookup by id *)

Example ObjectId_of_str_round :
  ObjectId_of_str (ObjectId_str Sample.vase_id) = Ok Sample.vase_id.
Proof. reflexivity. Qed.

Example ObjectId_of_str_upper :
  ObjectId_of_str (u "652B12F00000000000000001") = Ok Sample.vase_id.
Proof. reflexivity. Qed.

Example ObjectId_of_str_short : ObjectId_of_str (u "652b12f0") = Raise InvalidId.
Proof. reflexivity. Qed.

Example ObjectId_of_str_not_hex :
  ObjectId_of_str (u "652b12f0000000000000000z") = Raise InvalidId.
Proof. reflexivity. Qed.

(** ** Accounts *)

Example signup_scenario :
  signup PCRE.compile (Some (mkDb (u "museum") [])) Sample.user_id
    (SignupRequest.mk (u "A") (u "a@x.com") (u "password"))
  = (Ok (Identity.mk (u "652b12f00000000000000009") (VStr (u "A"))
           (VStr (u "a@x.com"))),
     Some (mkDb (u "museum") [("useraccount"%string, [Sample.account])])).
Proof. vm_compute. reflexivity. Qed.

Example signin_wrong_password :
  signin PCRE.compile (Some Sample.museum) (SigninRequest.mk (u "a@x.com") (u "wrong"))
  = Raise (HTTPException 401 "Invalid email or password").
Proof. vm_compute. reflexivity. Qed.

Example signin_right_password :
  signin PCRE.compile (Some Sample.museum)
    (SigninRequest.mk (u "a@x.com") (u "password"))
  = Ok (Identity.mk (u "652b12f00000000000000009") (VStr (u "A"))
          (VStr (u "a@x.com"))).
Proof. vm_compute. reflexivity. Qed.

(** C3. A signin for an email no account has, and a signin whose password
    digest differs from the stored one, fail alike: the same exception, 401
    with the same message. *)
Theorem signin_failures_alike
    (regex_compile : pystr -> pystr -> option (pystr -> bool))
    (d1 d2 : database) (unknown wrong : SigninRequest.t)
    (usr : document) (digest : pystr) :
  find_one regex_compile d1 "useraccount"
    [Field "email" (CEq (VStr (SigninRequest.email unknown)))] = Ok None ->
  find_one regex_compile d2 "useraccount"
    [Field "email" (CEq (VStr (SigninRequest.email wrong)))] = Ok (Some usr) ->
  hash_password (SigninRequest.password wrong) = Ok digest ->
  doc_get usr "password_hash" <> VStr digest ->
  signin regex_compile (Some d1) unknown
  = Raise (HTTPException 401 "Invalid email or password")
  /\ signin regex_compile (Some d2) wrong
     = Raise (HTTPException 401 "Invalid email or password")
  /\ signin regex_compile (Some d1) unknown = signin regex_compile (Some d2) wrong.
Proof.
  intros Hnone Hsome Hdigest Hne.
  assert (H1 : signin regex_compile (Some d1) unknown
               = Raise (HTTPException 401 "Invalid email or password")).
  { unfold signin. rewrite Hnone. reflexivity. }
  assert (H2 : signin regex_compile (Some d2) wrong
               = Raise (HTTPException 401 "Invalid email or password")).
  { unfold signin. rewrite Hsome. cbn [bind]. rewrite Hdigest. cbn [bind].
    destruct (value_eqb (doc_get usr "password_hash") (VStr digest)) eqn:E.
    - apply value_eqb_str in E. contradiction.
    - reflexivity. }
  split; [exact H1 | split; [exact H2 | congruence]].
Qed.

Lemma signin_failures_alike_witness :
  signin PCRE.compile (Some Sample.museum)
    (SigninRequest.mk (u "nobody@x.com") (u "password"))
  = Raise (HTTPException 401 "Invalid email or password")
  /\ signin PCRE.compile (Some Sample.museum)
       (SigninRequest.mk (u "a@x.com") (u "wrong"))
     = Raise (HTTPException 401 "Invalid email or password")
  /\ signin PCRE.compile (Some Sample.museum)
       (SigninRequest.mk (u "nobody@x.com") (u "password"))
     = signin PCRE.compile (Some Sample.museum)
         (SigninRequest.mk (u "a@x.com") (u "wrong")).
Proof.
  apply (signin_failures_alike PCRE.compile Sample.museum Sample.museum
           (SigninRequest.mk (u "nobody@x.com") (u "password"))
           (SigninRequest.mk (u "a@x.com") (u "wrong"))
           Sample.account
           (u "8810ad581e59f2bc3928b261707a71308f7e139eb04820366dc4d5c18d980225")).
  - reflexivity.
  - reflexivity.
  - vm_compute. reflexivity.
  - vm_compute. discriminate.
Defined.

(** C4. A signup whose email an account already has fails with 400
    duplicate-email and leaves the store as it was. *)
Theorem signup_duplicate_email
    (regex_compile : pystr -> pystr -> option (pystr -> bool))
    (d : database) (fresh : ObjectId) (payload : SignupRequest.t)
    (existing : document) :
  find_one regex_compile d "useraccount"
    [Field "email" (CEq (VStr (SignupRequest.email payload)))] = Ok (Some existing) ->
  signup regex_compile (Some d) fresh payload
  = (Raise (HTTPException 400 "Email already registered"), Some d).
Proof.
  intros Hfound. unfold signup. rewrite Hfound. reflexivity.
Qed.

Lemma signup_duplicate_email_witness :
  signup PCRE.compile (Some Sample.museum) Sample.next_id
    (SignupRequest.mk (u "B") (u "a@x.com") (u "pw2"))
  = (Raise (HTTPException 400 "Email already registered"), Some Sample.museum).
Proof.
  apply (signup_duplicate_email PCRE.compile Sample.museum Sample.next_id
           (SignupRequest.mk (u "B") (u "a@x.com") (u "pw2")) Sample.account).
  reflexivity.
Defined.

(** C9. When no account has the email, signup succeeds, and a signin with
    the same email and password on the resulting store succeeds with the
    same id, name and email. *)
Theorem signup_then_signin
    (regex_compile : pystr -> pystr -> option (pystr -> bool))
    (d : database) (fresh : ObjectId) (name email password : pystr) :
  Forall is_scalar password ->
  find_one regex_compile d "useraccount" [Field "email" (CEq (VStr email))]
  = Ok None ->
  exists (who : Identity.t) (d' : database),
    signup regex_compile (Some d) fresh (SignupRequest.mk name email password)
    = (Ok who, Some d')
    /\ signin regex_compile (Some d') (SigninRequest.mk email password) = Ok who
    /\ who = Identity.mk (ObjectId_str fresh) (VStr name) (VStr email).
Proof.
  intros Hpw Hnone.
  destruct (hash_password_total password Hpw) as [digest Hhash].
  unfold signup. cbn [SignupRequest.email SignupRequest.password SignupRequest.name].
  rewrite Hnone, Hhash. cbn [create_document].
  eexists. eexists. split; [reflexivity|].
  split; [|reflexivity].
  unfold signin. cbn [SigninRequest.email SigninRequest.password].
  rewrite find_one_eq, collection_insert_one, filter_app.
  rewrite find_one_eq in Hnone. injection Hnone as Hnone.
  apply hd_error_filter_none in Hnone. rewrite Hnone.
  cbn [app filter]. unfold matches_eq at 1, doc_get at 1.
  cbn [String.eqb Ascii.eqb Bool.eqb fields UserAccount.model_dump UserAccount.make
       UserAccount.name UserAccount.email UserAccount.password_hash UserAccount.role
       UserAccount.is_active assoc value_eqb].
  rewrite pystr_eqb_refl. cbn [orb andb hd_error bind].
  rewrite Hhash. cbn [bind].
  unfold doc_get.
  cbn [String.eqb Ascii.eqb Bool.eqb fields UserAccount.model_dump UserAccount.make
       UserAccount.name UserAccount.email UserAccount.password_hash UserAccount.role
       UserAccount.is_active assoc value_eqb _id].
  rewrite pystr_eqb_refl. reflexivity.
Qed.

Lemma signup_then_signin_witness :
  exists (who : Identity.t) (d' : database),
    signup PCRE.compile (Some Sample.museum) Sample.next_id
      (SignupRequest.mk (u "B") (u "b@x.com") (u "pw1"))
    = (Ok who, Some d')
    /\ signin PCRE.compile (Some d') (SigninRequest.mk (u "b@x.com") (u "pw1"))
       = Ok who
    /\ who = Identity.mk (ObjectId_str Sample.next_id) (VStr (u "B"))
               (VStr (u "b@x.com")).
Proof.
  apply (signup_then_signin PCRE.compile Sample.museum Sample.next_id
           (u "B") (u "b@x.com") (u "pw1")).
  - repeat constructor; unfold is_scalar; simpl; lia.
  - reflexivity.
Defined.

(** ** The artifact list *)

Example list_all :
  list_artifacts PCRE.compile (Some Sample.museum) None None 50
  = Ok [PublicArtifact.mk (u "652b12f00000000000000001") (u "Ming Vase")
          (Some (u "Porcelain, blue and white")) None None None
          (Some [u "ceramic"; u "China"]);
        PublicArtifact.mk (u "652b12f00000000000000002") (u "Roman coin")
          None None None None None].
Proof. vm_compute. reflexivity. Qed.

Example list_by_tag :
  list_artifacts PCRE.compile (Some Sample.museum) (Some (u "china")) None 50
  = traverse to_public [Sample.vase].
Proof. vm_compute. reflexivity. Qed.

Example list_featured :
  list_artifacts PCRE.compile (Some Sample.museum) None (Some false) 50
  = traverse to_public [Sample.coin].
Proof. vm_compute. reflexivity. Qed.

Example list_limit_one :
  list_artifacts PCRE.compile (Some Sample.museum) None None 1
  = traverse to_public [Sample.vase].
Proof. vm_compute. reflexivity. Qed.

(** A pattern the engine rejects fails the whole call. *)
Example list_bad_pattern :
  list_artifacts PCRE.compile (Some Sample.museum) (Some (u "(")) None 50
  = Raise OperationFailure.
Proof. vm_compute. reflexivity. Qed.

(** C6. With [limit = N >= 0], the list operation returns at most [N]
    results, whatever the query, the flag and the stored documents. *)
Theorem list_artifacts_limit
    (regex_compile : pystr -> pystr -> option (pystr -> bool))
    (db : option database) (q : option pystr) (featured : option bool)
    (N : Z) (results : list PublicArtifact.t) :
  0 <= N ->
  list_artifacts regex_compile db q featured N = Ok results ->
  Z.of_nat (length results) <= N.
Proof.
  intros HN H. unfold list_artifacts in H.
  destruct db as [d|]; [|discriminate].
  unfold get_documents in H.
  destruct (find regex_compile d "artifact" (build_filter q featured)) as [docs|e];
    cbn [bind] in H; [|discriminate].
  apply traverse_length in H. rewrite H.
  pose proof (firstn_le_length (Z.to_nat N) docs). lia.
Qed.

Lemma list_artifacts_limit_witness :
  0 <= 1
  /\ list_artifacts PCRE.compile (Some Sample.museum) None None 1
     = Ok [PublicArtifact.mk (u "652b12f00000000000000001") (u "Ming Vase")
             (Some (u "Porcelain, blue and white")) None None None
             (Some [u "ceramic"; u "China"])]
  /\ Z.of_nat (length [PublicArtifact.mk (u "652b12f00000000000000001")
                         (u "Ming Vase") (Some (u "Porcelain, blue and white"))
                         None None None (Some [u "ceramic"; u "China"])]) <= 1.
Proof.
  split; [lia|]. split; [vm_compute; reflexivity|].
  apply (list_artifacts_limit PCRE.compile (Some Sample.museum) None None 1);
    [lia | vm_compute; reflexivity].
Defined.

Lemma In_firstn {A} (n : nat) (l : list A) (x : A) : In x (firstn n l) -> In x l.
Proof.
  revert l. induction n as [|n IH]; intros [|y l] H; cbn [firstn] in H;
    try contradiction.
  destruct H as [->|H]; [now left | right; now apply IH].
Qed.

(** The list operation does return when the store is configured, the filter
    is accepted and the documents fetched have a public shape. *)
Lemma traverse_total {A B} (f : A -> result B) (l : list A) :
  Forall (fun x => exists y, f x = Ok y) l -> exists ys, traverse f l = Ok ys.
Proof.
  induction 1 as [|x l [y Hy] _ [ys IH]]; cbn [traverse]; [eauto|].
  rewrite Hy, IH. cbn [bind]. eauto.
Qed.

Lemma list_artifacts_returns
    (regex_compile : pystr -> pystr -> option (pystr -> bool))
    (d : database) (featured : option bool) (limit : Z) :
  Forall (fun doc => exists p, to_public doc = Ok p) (collection d "artifact") ->
  exists results, list_artifacts regex_compile (Some d) None featured limit = Ok results.
Proof.
  intros Hall. unfold list_artifacts, get_documents.
  assert (Hf : exists p, find regex_compile d "artifact" (build_filter None featured)
                         = Ok (filter p (collection d "artifact"))).
  { destruct featured; eexists; reflexivity. }
  destruct Hf as [p ->]. cbn [bind].
  apply traverse_total. apply Forall_forall. intros doc Hin.
  apply In_firstn, filter_In in Hin as [Hin _].
  revert doc Hin. now apply Forall_forall.
Qed.

(** C10. An empty [q] is no [q]: the same filter is built, without a text
    clause, the call behaves as with [q] absent, and the result is the
    public shape of the first [limit] artifacts that satisfy the featured
    flag. *)
Theorem list_artifacts_empty_q
    (regex_compile : pystr -> pystr -> option (pystr -> bool))
    (db : option database) (d : database) (featured : option bool) (limit : Z) :
  build_filter (Some []) featured = build_filter None featured
  /\ build_filter (Some []) featured
     = match featured with
       | Some b => [Field "featured" (CEq (VBool b))]
       | None => []
       end
  /\ list_artifacts regex_compile db (Some []) featured limit
     = list_artifacts regex_compile db None featured limit
  /\ list_artifacts regex_compile (Some d) (Some []) featured limit
     = traverse to_public
         (firstn (Z.to_nat limit)
            (filter (featured_hit featured) (collection d "artifact"))).
Proof.
  repeat split.
  unfold list_artifacts, get_documents, find.
  destruct featured as [b|]; cbn [build_filter truthy app compile_filter
    compile_clause compile_cond bind].
  - f_equal. f_equal. apply filter_ext. intros doc.
    unfold featured_hit. apply andb_true_r.
  - reflexivity.
Qed.

(** ** The public shape *)

Lemma validate_opt_str_ok (field : string) (v : value) :
  opt_text v ->
  exists o, validate_opt_str field v = Ok o /\ (v = VNull -> o = None).
Proof.
  intros [->|[s ->]]; cbn [validate_opt_str]; eexists; split;
    try reflexivity; try discriminate.
Qed.

Lemma traverse_validate_str (field : string) (l : list pystr) :
  traverse (validate_str field) (map VStr l) = Ok l.
Proof.
  induction l as [|s l IH]; [reflexivity|].
  cbn [map traverse validate_str bind]. now rewrite IH.
Qed.

Lemma validate_opt_list_str_ok (field : string) (v : value) :
  opt_texts v ->
  exists o, validate_opt_list_str field v = Ok o /\ (v = VNull -> o = None).
Proof.
  intros [->|[l ->]]; cbn [validate_opt_list_str].
  - eexists; split; reflexivity.
  - rewrite traverse_validate_str. cbn [bind]. eexists; split;
      [reflexivity | discriminate].
Qed.

Lemma absent_get (d : document) (k : string) :
  String.eqb k "_id" = false -> absent d k -> doc_get d k = VNull.
Proof.
  unfold absent, doc_get. intros -> ->. reflexivity.
Qed.

(** C7, as the code has it. A document whose title is a text, and whose
    other public fields are absent, null or of their declared type, maps to
    the public shape without error, and each of description, image_url,
    period, collection and tags that is absent comes out null. *)
Theorem to_public_titled (d : document) (title : pystr) :
  doc_get d "title" = VStr title ->
  opt_text (doc_get d "description") ->
  opt_text (doc_get d "image_url") ->
  opt_text (doc_get d "period") ->
  opt_text (doc_get d "collection") ->
  opt_texts (doc_get d "tags") ->
  exists p,
    to_public d = Ok p
    /\ PublicArtifact.id p = ObjectId_str (_id d)
    /\ PublicArtifact.title p = title
    /\ (absent d "description" -> PublicArtifact.description p = None)
    /\ (absent d "image_url" -> PublicArtifact.image_url p = None)
    /\ (absent d "period" -> PublicArtifact.period p = None)
    /\ (absent d "collection" -> PublicArtifact.collection p = None)
    /\ (absent d "tags" -> PublicArtifact.tags p = None).
Proof.
  intros Ht Hd Hi Hp Hc Hg.
  destruct (validate_opt_str_ok "description" _ Hd) as (vd & Ed & Nd).
  destruct (validate_opt_str_ok "image_url" _ Hi) as (vi & Ei & Ni).
  destruct (validate_opt_str_ok "period" _ Hp) as (vp & Ep & Np).
  destruct (validate_opt_str_ok "collection" _ Hc) as (vc & Ec & Nc).
  destruct (validate_opt_list_str_ok "tags" _ Hg) as (vg & Eg & Ng).
  unfold to_public. rewrite Ht, Ed, Ei, Ep, Ec, Eg. cbn [validate_str bind].
  eexists. split; [reflexivity|].
  cbn [PublicArtifact.id PublicArtifact.title PublicArtifact.description
       PublicArtifact.image_url PublicArtifact.period PublicArtifact.collection
       PublicArtifact.tags].
  repeat split; intros Ha;
    [apply Nd | apply Ni | apply Np | apply Nc | apply Ng];
    apply absent_get; auto.
Qed.

Lemma to_public_titled_witness :
  exists p,
    to_public Sample.coin = Ok p
    /\ PublicArtifact.id p = ObjectId_str (_id Sample.coin)
    /\ PublicArtifact.title p = u "Roman coin"
    /\ (absent Sample.coin "description" -> PublicArtifact.description p = None)
    /\ (absent Sample.coin "image_url" -> PublicArtifact.image_url p = None)
    /\ (absent Sample.coin "period" -> PublicArtifact.period p = None)
    /\ (absent Sample.coin "collection" -> PublicArtifact.collection p = None)
    /\ (absent Sample.coin "tags" -> PublicArtifact.tags p = None).
Proof.
  apply (to_public_titled Sample.coin (u "Roman coin"));
    solve [reflexivity | left; reflexivity].
Defined.

(** C7 as stated fails: a stored document without a title has no public
    shape, and a list or get that meets it raises. *)
Lemma to_public_untitled_fails :
  absent Sample.scrap "title"
  /\ to_public Sample.scrap = Raise (ValidationError "title")
  /\ list_artifacts PCRE.compile (Some Sample.attic) None None 50
     = Raise (ValidationError "title")
  /\ get_artifact PCRE.compile (Some Sample.attic) (u "652b12f00000000000000003")
     = Raise (ValidationError "title").
Proof. repeat split; vm_compute; reflexivity. Qed.

(** ** Artifact lookup by id, case by case *)

Lemma hex_digit_not_space (c : Z) : hex_digit c = true -> is_space c = false.
Proof.
  unfold hex_digit, hexval, is_space.
  destruct (Z.leb_spec 48 c), (Z.leb_spec c 57); cbn [andb];
    try (intros _; destruct (Z.eqb_spec c 32), (Z.leb_spec 9 c), (Z.leb_spec c 13);
         cbn [andb orb]; reflexivity || lia);
    destruct (Z.leb_spec 97 c), (Z.leb_spec c 102); cbn [andb];
    try (intros _; destruct (Z.eqb_spec c 32), (Z.leb_spec 9 c), (Z.leb_spec c 13);
         cbn [andb orb]; reflexivity || lia);
    destruct (Z.leb_spec 65 c), (Z.leb_spec c 70); cbn [andb];
    try discriminate;
    intros _; destruct (Z.eqb_spec c 32), (Z.leb_spec 9 c), (Z.leb_spec c 13);
    cbn [andb orb]; reflexivity || lia.
Qed.

Lemma hexval_range (c v : Z) : hexval c = Some v -> 0 <= v < 16.
Proof.
  unfold hexval.
  destruct (Z.leb_spec 48 c), (Z.leb_spec c 57); cbn [andb];
    try (intros Hv; injection Hv as <-; lia);
    destruct (Z.leb_spec 97 c), (Z.leb_spec c 102); cbn [andb];
    try (intros Hv; injection Hv as <-; lia);
    destruct (Z.leb_spec 65 c), (Z.leb_spec c 70); cbn [andb];
    try discriminate; intros Hv; injection Hv as <-; lia.
Qed.

(** Hexadecimal digits in even number are the text of that many bytes. *)
Lemma fromhex_digits (n : nat) (s : pystr) :
  forallb hex_digit s = true -> length s = (2 * n)%nat ->
  exists bs, fromhex s = Some bs /\ length bs = n /\ Forall is_byte bs.
Proof.
  revert s. induction n as [|n IH]; intros s Hs Hlen.
  - destruct s; [|discriminate]. exists []. repeat split. constructor.
  - destruct s as [|c [|c' s]]; cbn [length] in Hlen; try lia.
    cbn [forallb] in Hs. apply andb_true_iff in Hs as [Hc Hs].
    apply andb_true_iff in Hs as [Hc' Hs].
    destruct (IH s Hs ltac:(lia)) as (bs & Hbs & Hl & Hb).
    cbn [fromhex]. rewrite (hex_digit_not_space c Hc).
    unfold hex_digit in Hc, Hc'.
    destruct (hexval c) as [hi|] eqn:Ehi; [|discriminate].
    destruct (hexval c') as [lo|] eqn:Elo; [|discriminate].
    rewrite Hbs. eexists. split; [reflexivity|]. split; [cbn [length]; lia|].
    constructor; [|exact Hb].
    apply hexval_range in Ehi, Elo. unfold is_byte. lia.
Qed.

(** Without blanks, only hexadecimal digits are read as bytes. *)
Lemma fromhex_no_space (s : pystr) (bs : list Z) :
  existsb is_space s = false -> fromhex s = Some bs -> forallb hex_digit s = true.
Proof.
  assert (H : forall n s bs, (length s <= n)%nat -> existsb is_space s = false ->
                             fromhex s = Some bs -> forallb hex_digit s = true).
  { clear s bs. induction n as [|n IH]; intros [|c s] bs Hlen Hsp Hf;
      try reflexivity; cbn [length] in Hlen; [lia|].
    cbn [existsb] in Hsp. apply orb_false_iff in Hsp as [Hc Hsp].
    cbn [fromhex] in Hf. rewrite Hc in Hf.
    destruct (hexval c) as [hi|] eqn:Ehi; [|discriminate].
    destruct s as [|c' s]; [discriminate|].
    cbn [existsb] in Hsp. apply orb_false_iff in Hsp as [Hc' Hsp].
    destruct (hexval c') as [lo|] eqn:Elo; [|discriminate].
    destruct (fromhex s) as [rest|] eqn:Er; [|discriminate].
    cbn [forallb]. unfold hex_digit at 1 2. rewrite Ehi, Elo. cbn [andb].
    cbn [length] in Hlen. apply (IH s rest); [lia | exact Hsp | exact Er]. }
  now apply (H (length s)).
Qed.

Lemma hex24_accepted (s : pystr) :
  hex24 s = true -> exists oid, ObjectId_of_str s = Ok oid /\ generated_id oid.
Proof.
  unfold hex24, ObjectId_of_str. intros H. apply andb_true_iff in H as [Hlen Hs].
  rewrite Hlen. apply Nat.eqb_eq in Hlen.
  destruct (fromhex_digits 12 s Hs Hlen) as (bs & -> & Hl & Hb).
  exists bs. repeat split; assumption.
Qed.

Lemma not_hex24_rejected (s : pystr) :
  hex24 s = false -> existsb is_space s = false -> ObjectId_of_str s = Raise InvalidId.
Proof.
  unfold hex24, ObjectId_of_str. intros H Hsp.
  destruct (length s =? 24)%nat; [|reflexivity]. cbn [andb] in H.
  destruct (fromhex s) as [bs|] eqn:E; [|reflexivity].
  rewrite (fromhex_no_space s bs Hsp E) in H. discriminate.
Qed.

Lemma to_public_well_typed (d : document) (title : pystr) :
  doc_get d "title" = VStr title ->
  opt_text (doc_get d "description") ->
  opt_text (doc_get d "image_url") ->
  opt_text (doc_get d "period") ->
  opt_text (doc_get d "collection") ->
  opt_texts (doc_get d "tags") ->
  exists p,
    to_public d = Ok p
    /\ PublicArtifact.id p = ObjectId_str (_id d)
    /\ PublicArtifact.title p = title.
Proof.
  intros Ht Hd Hi Hp Hc Hg.
  destruct (validate_opt_str_ok "description" _ Hd) as (vd & Ed & _).
  destruct (validate_opt_str_ok "image_url" _ Hi) as (vi & Ei & _).
  destruct (validate_opt_str_ok "period" _ Hp) as (vp & Ep & _).
  destruct (validate_opt_str_ok "collection" _ Hc) as (vc & Ec & _).
  destruct (validate_opt_list_str_ok "tags" _ Hg) as (vg & Eg & _).
  unfold to_public. rewrite Ht, Ed, Ei, Ep, Ec, Eg. cbn [validate_str bind].
  eexists. repeat split.
Qed.

(** C2, as the code has it. With the store configured, get-by-id answers
    400 invalid-id, and not 404, to every text the id parser rejects, which
    includes every text without blanks that is not 24 hexadecimal digits; 24
    hexadecimal digits are always accepted, as a 12-byte id; an accepted id
    that matches no artifact is answered 404 not-found; and on a match with
    a document whose title is a text and whose other public fields are
    absent, null or of their declared type, the answer is the public shape
    of that document, under the text of the id. *)
Theorem get_artifact_cases
    (regex_compile : pystr -> pystr -> option (pystr -> bool))
    (d : database) (artifact_id : pystr) :
  (forall e, ObjectId_of_str artifact_id = Raise e ->
     get_artifact regex_compile (Some d) artifact_id
     = Raise (HTTPException 400 "Invalid artifact id")
     /\ get_artifact regex_compile (Some d) artifact_id
        <> Raise (HTTPException 404 "Artifact not found"))
  /\ (hex24 artifact_id = false -> existsb is_space artifact_id = false ->
      get_artifact regex_compile (Some d) artifact_id
      = Raise (HTTPException 400 "Invalid artifact id"))
  /\ (hex24 artifact_id = true ->
      exists oid, ObjectId_of_str artifact_id = Ok oid /\ generated_id oid)
  /\ (forall oid, ObjectId_of_str artifact_id = Ok oid ->
      find_one regex_compile d "artifact" [Field "_id" (CEq (VOid oid))] = Ok None ->
      get_artifact regex_compile (Some d) artifact_id
      = Raise (HTTPException 404 "Artifact not found"))
  /\ (forall oid doc title, ObjectId_of_str artifact_id = Ok oid ->
      find_one regex_compile d "artifact" [Field "_id" (CEq (VOid oid))]
      = Ok (Some doc) ->
      doc_get doc "title" = VStr title ->
      opt_text (doc_get doc "description") ->
      opt_text (doc_get doc "image_url") ->
      opt_text (doc_get doc "period") ->
      opt_text (doc_get doc "collection") ->
      opt_texts (doc_get doc "tags") ->
      exists p,
        get_artifact regex_compile (Some d) artifact_id = Ok p
        /\ to_public doc = Ok p
        /\ _id doc = oid
        /\ PublicArtifact.id p = ObjectId_str oid
        /\ PublicArtifact.title p = title).
Proof.
  unfold get_artifact. split; [|split; [|split; [|split]]].
  - intros e He. rewrite He. cbn [try_except bind].
    split; [reflexivity | discriminate].
  - intros Hfmt Hsp. rewrite (not_hex24_rejected artifact_id Hfmt Hsp). reflexivity.
  - apply hex24_accepted.
  - intros oid Hoid Hnone. rewrite Hoid. cbn [try_except bind].
    rewrite Hnone. reflexivity.
  - intros oid doc title Hoid Hsome Ht Hd Hi Hp Hc Hg.
    assert (Hid : _id doc = oid).
    { rewrite find_one_eq in Hsome. injection Hsome as Hsome.
      destruct (filter _ _) as [|x l] eqn:E; [discriminate|].
      injection Hsome as ->.
      assert (Hin : In doc (doc :: l)) by now left.
      rewrite <- E in Hin. apply filter_In in Hin as [_ Hm].
      unfold matches_eq, doc_get in Hm. cbn in Hm.
      rewrite !orb_false_r, andb_true_r in Hm. now apply pystr_eqb_eq. }
    destruct (to_public_well_typed doc title Ht Hd Hi Hp Hc Hg) as (p & Hp1 & Hp2 & Hp3).
    exists p. rewrite Hoid. cbn [try_except bind]. rewrite Hsome.
    repeat split; try assumption. now rewrite <- Hid.
Qed.

Lemma get_artifact_cases_witness :
  get_artifact PCRE.compile (Some Sample.museum) (u "ming-vase")
  = Raise (HTTPException 400 "Invalid artifact id")
  /\ get_artifact PCRE.compile (Some Sample.museum) (u "652b12f0000000000000000g")
     = Raise (HTTPException 400 "Invalid artifact id")
  /\ get_artifact PCRE.compile (Some Sample.museum) (u "652b12f00000000000000007")
     = Raise (HTTPException 404 "Artifact not found")
  /\ exists p,
       get_artifact PCRE.compile (Some Sample.museum) (u "652b12f00000000000000001")
       = Ok p
       /\ to_public Sample.vase = Ok p
       /\ _id Sample.vase = Sample.vase_id
       /\ PublicArtifact.id p = ObjectId_str Sample.vase_id
       /\ PublicArtifact.title p = u "Ming Vase".
Proof.
  split; [|split; [|split]].
  - apply (proj1 (get_artifact_cases PCRE.compile Sample.museum (u "ming-vase"))
             InvalidId).
    reflexivity.
  - apply (proj1 (proj2 (get_artifact_cases PCRE.compile Sample.museum
                           (u "652b12f0000000000000000g"))));
      reflexivity.
  - apply (proj1 (proj2 (proj2 (proj2
             (get_artifact_cases PCRE.compile Sample.museum
                (u "652b12f00000000000000007")))))
             [101; 43; 18; 240; 0; 0; 0; 0; 0; 0; 0; 7]); reflexivity.
  - apply (proj2 (proj2 (proj2 (proj2
             (get_artifact_cases PCRE.compile Sample.museum
                (u "652b12f00000000000000001")))))
             Sample.vase_id Sample.vase (u "Ming Vase"));
      solve [reflexivity | left; reflexivity | right; eexists; reflexivity
            | right; exists [u "ceramic"; u "China"]; reflexivity].
Defined.

(** C2 as stated fails, twice. A text of 24 characters with blanks in it is
    not an id of the storage format, yet the parser reads it as a shorter id
    and the answer is 404, not 400. And a well-formed id that matches a
    document stored without a title is answered with a validation error,
    not with a public shape. *)
Lemma get_artifact_blank_id_not_found :
  hex24 (u "652b12f0000000000000 01 ") = false
  /\ length (u "652b12f0000000000000 01 ") = 24%nat
  /\ ObjectId_of_str (u "652b12f0000000000000 01 ")
     = Ok [101; 43; 18; 240; 0; 0; 0; 0; 0; 0; 1]
  /\ get_artifact PCRE.compile (Some Sample.museum) (u "652b12f0000000000000 01 ")
     = Raise (HTTPException 404 "Artifact not found")
  /\ hex24 (u "652b12f00000000000000003") = true
  /\ find_one PCRE.compile Sample.attic "artifact"
       [Field "_id" (CEq (VOid Sample.scrap_id))] = Ok (Some Sample.scrap)
  /\ get_artifact PCRE.compile (Some Sample.attic) (u "652b12f00000000000000003")
     = Raise (ValidationError "title").
Proof. repeat split. Qed.

(** ** The diagnostic endpoint *)

Example test_database_absent :
  test_database (fun _ => []) None (Ok []) (fun _ => None)
  = Ok (Status.mk (check_mark ++ u " Running")
          (warning_sign ++ u "  Available but not initialized")
          (Some (cross_mark ++ u " Not Set")) (Some (cross_mark ++ u " Not Set"))
          (u "Not Connected") []).
Proof. reflexivity. Qed.

(** C8. Whatever the handle is and whatever listing the collection names
    does, the diagnostic endpoint returns a response: a failed listing is
    reported in the [database] field by the first 50 characters, at most,
    of its message. *)
Theorem test_database_never_raises
    (str_exn : exn -> pystr) (db : option database)
    (list_collection_names : result (list pystr))
    (getenv : string -> option pystr) :
  exists r,
    test_database str_exn db list_collection_names getenv = Ok r
    /\ match db, list_collection_names with
       | None, _ =>
           Status.database r = warning_sign ++ u "  Available but not initialized"
       | Some _, Ok names =>
           Status.database r = check_mark ++ u " Connected & Working"
           /\ Status.collections r = firstn 10 names
       | Some _, Raise e =>
           Status.database r
           = warning_sign ++ u "  Connected but Error: " ++ firstn 50 (str_exn e)
           /\ (length (firstn 50 (str_exn e)) <= 50)%nat
           /\ Status.collections r = []
       end.
Proof.
  destruct db as [d|]; [destruct list_collection_names as [names|e]|];
    eexists; (split; [reflexivity|]); cbv beta iota.
  - split; reflexivity.
  - split; [reflexivity|]. split; [apply firstn_le_length | reflexivity].
  - reflexivity.
Qed.

Example test_database_unreachable :
  test_database (fun e => match e with PyMongoError m => m | _ => [] end)
    (Some Sample.museum)
    (Raise (PyMongoError
              (u "localhost:27017: [Errno 111] Connection refused, Timeout: 30s")))
    (fun _ => Some (u "set"))
  = Ok (Status.mk (check_mark ++ u " Running")
          (warning_sign
           ++ u "  Connected but Error: localhost:27017: [Errno 111] Connection refused, T")
          (Some (check_mark ++ u " Set")) (Some (check_mark ++ u " Set"))
          (u "Connected") []).
Proof. vm_compute. reflexivity. Qed.

(** ** The text filter *)

Lemma atoms_literal (q : pystr) :
  PCRE.literal q = true -> PCRE.atoms q = Some (map PCRE.Lit q).
Proof.
  induction q as [|c q IH]; [reflexivity|].
  cbn [PCRE.literal forallb]. intros H. apply andb_true_iff in H as [Hc Hq].
  cbn [PCRE.atoms map]. rewrite (IH Hq). unfold PCRE.atom_of. rewrite Hc.
  destruct (Z.eqb_spec c 46) as [->|_]; [discriminate Hc | reflexivity].
Qed.

Lemma match_here_literal (q s : pystr) :
  PCRE.match_here true (map PCRE.Lit q) s = ci_prefix q s.
Proof.
  revert s. induction q as [|x q IH]; intros [|c s]; try reflexivity.
  cbn [map PCRE.match_here ci_prefix PCRE.atom_match]. now rewrite IH.
Qed.

Lemma search_literal (q s : pystr) :
  PCRE.search true (map PCRE.Lit q) s = ci_contains q s.
Proof.
  induction s as [|c s IH]; cbn [PCRE.search ci_contains];
    rewrite match_here_literal; [reflexivity | now rewrite IH].
Qed.

(** The engine reads a pattern without metacharacters as the text itself. *)
Lemma compile_literal (q : pystr) :
  PCRE.literal q = true ->
  exists m, PCRE.compile q (u "i") = Some m /\ forall s, m s = ci_contains q s.
Proof.
  intros Hq. unfold PCRE.compile. rewrite (atoms_literal q Hq).
  eexists. split; [reflexivity | apply search_literal].
Qed.

Lemma matches_regex_contains (m : pystr -> bool) (q : pystr) (v : value) :
  (forall s, m s = ci_contains q s) -> matches_regex m v = field_contains q v.
Proof.
  intros Hm. destruct v; cbn [matches_regex field_contains]; auto.
  induction l as [|x l IH]; [reflexivity|].
  cbn [existsb]. rewrite IH. destruct x; auto. now rewrite Hm.
Qed.

(** C1, as the code has it. For a non-empty [q] that the engine reads as
    plain text, the filter sent to the storage accessor matches exactly the
    documents whose title, description or tags contain [q], letter case
    ignored, and, when [featured] is given, whose featured field equals it.
    In general [q] is sent as a regular expression. *)
Theorem build_filter_matches
    (regex_compile : pystr -> pystr -> option (pystr -> bool))
    (q : pystr) (featured : option bool) (m : pystr -> bool) :
  q <> [] ->
  regex_compile q (u "i") = Some m ->
  (forall s, m s = ci_contains q s) ->
  build_filter (Some q) featured
  = [Or [("title"%string, CRegex q (u "i"));
         ("description"%string, CRegex q (u "i"));
         ("tags"%string, CRegex q (u "i"))]]
    ++ match featured with
       | Some b => [Field "featured" (CEq (VBool b))]
       | None => []
       end
  /\ exists p,
       compile_filter regex_compile (build_filter (Some q) featured) = Some p
       /\ forall d, p d = text_hit q d && featured_hit featured d.
Proof.
  intros Hq Hc Hm.
  assert (Ht : truthy q = true) by (destruct q; [contradiction | reflexivity]).
  unfold build_filter. rewrite Ht. split; [reflexivity|].
  destruct featured as [b|];
    cbn [app compile_filter compile_clause compile_or compile_cond];
    rewrite Hc; eexists; (split; [reflexivity|]);
    intros d; cbv beta; unfold text_hit, featured_hit;
    rewrite !(matches_regex_contains m q) by exact Hm;
    rewrite ?orb_false_r, ?andb_true_r, ?orb_assoc; reflexivity.
Qed.

Lemma build_filter_matches_witness :
  u "vase" <> []
  /\ PCRE.compile (u "vase") (u "i")
     = Some (PCRE.search true (map PCRE.Lit (u "vase")))
  /\ build_filter (Some (u "vase")) (Some true)
     = [Or [("title"%string, CRegex (u "vase") (u "i"));
            ("description"%string, CRegex (u "vase") (u "i"));
            ("tags"%string, CRegex (u "vase") (u "i"))]]
       ++ [Field "featured" (CEq (VBool true))]
  /\ exists p,
       compile_filter PCRE.compile (build_filter (Some (u "vase")) (Some true))
       = Some p
       /\ forall d, p d = text_hit (u "vase") d && featured_hit (Some true) d.
Proof.
  split; [discriminate|]. split; [reflexivity|].
  apply (build_filter_matches PCRE.compile (u "vase") (Some true)
           (PCRE.search true (map PCRE.Lit (u "vase")))).
  - discriminate.
  - reflexivity.
  - intros s. apply search_literal.
Defined.

(** C1 as stated fails: the query [a.c] is a pattern, and the filter built
    from it matches a document titled [abc], which does not contain [a.c]. *)
Lemma build_filter_pattern_not_substring :
  (exists p,
     compile_filter PCRE.compile (build_filter (Some (u "a.c")) None) = Some p
     /\ p Sample.abc = true)
  /\ text_hit (u "a.c") Sample.abc = false
  /\ list_artifacts PCRE.compile
       (Some (mkDb (u "museum") [("artifact"%string, [Sample.abc])]))
       (Some (u "a.c")) None 50
     = traverse to_public [Sample.abc].
Proof.
  split; [|split].
  - eexists. split; reflexivity.
  - reflexivity.
  - vm_compute. reflexivity.
Qed.

(** * Further properties of the handlers *)

(** ** Without a store *)

(** Every handler that needs the store answers 500 when the handle is
    unset, whatever the request, and signup leaves the handle unset. *)
Theorem handlers_without_store
    (regex_compile : pystr -> pystr -> option (pystr -> bool))
    (q : option pystr) (featured : option bool) (limit : Z)
    (artifact_id : pystr) (fresh : ObjectId)
    (up : SignupRequest.t) (inp : SigninRequest.t) :
  list_artifacts regex_compile None q featured limit
  = Raise (HTTPException 500 "Database not configured")
  /\ get_artifact regex_compile None artifact_id
     = Raise (HTTPException 500 "Database not configured")
  /\ signup regex_compile None fresh up
     = (Raise (HTTPException 500 "Database not configured"), None)
  /\ signin regex_compile None inp
     = Raise (HTTPException 500 "Database not configured").
Proof. repeat split. Qed.

(** ** Identifiers *)

Ltac zbool :=
  repeat (match goal with
          | |- context [?x <=? ?y] => destruct (Z.leb_spec x y)
          | |- context [?x <? ?y] => destruct (Z.ltb_spec x y)
          | |- context [?x =? ?y] => destruct (Z.eqb_spec x y)
          end; cbn [andb orb negb]);
  try reflexivity; try lia.

Lemma hexdigit_not_space (n : Z) : 0 <= n < 16 -> is_space (hexdigit n) = false.
Proof.
  intros Hn. unfold hexdigit. destruct (Z.ltb_spec n 10); unfold is_space; zbool.
Qed.

Lemma hexval_hexdigit (n : Z) : 0 <= n < 16 -> hexval (hexdigit n) = Some n.
Proof.
  intros Hn. unfold hexdigit. destruct (Z.ltb_spec n 10); unfold hexval;
    zbool; f_equal; lia.
Qed.

(** [bytes.fromhex] undoes [bytes.hex]. *)
Lemma fromhex_hex (bs : list Z) : Forall is_byte bs -> fromhex (hex bs) = Some bs.
Proof.
  unfold hex. induction 1 as [|b bs Hb _ IH]; [reflexivity|].
  unfold is_byte in Hb.
  assert (Hhi : 0 <= b / 16 < 16).
  { split; [apply Z.div_pos; lia | apply Z.div_lt_upper_bound; lia]. }
  assert (Hlo : 0 <= b mod 16 < 16) by (apply Z.mod_pos_bound; lia).
  cbn [flat_map app fromhex].
  rewrite (hexdigit_not_space _ Hhi), (hexval_hexdigit _ Hhi),
    (hexval_hexdigit _ Hlo), IH.
  f_equal. f_equal. rewrite (Z.div_mod b 16) at 3 by lia. reflexivity.
Qed.

Lemma ObjectId_of_str_str (o : ObjectId) :
  generated_id o -> ObjectId_of_str (ObjectId_str o) = Ok o.
Proof.
  intros [Hlen Hbytes]. unfold ObjectId_of_str, ObjectId_str.
  rewrite hex_length, Hlen. cbn [Nat.mul Nat.add Nat.eqb].
  now rewrite fromhex_hex.
Qed.

(** The text of a generated id parses back to the id. *)
Theorem ObjectId_round_trip (o : ObjectId) :
  generated_id o ->
  length (ObjectId_str o) = 24%nat
  /\ forallb is_lower_hex (ObjectId_str o) = true
  /\ ObjectId_of_str (ObjectId_str o) = Ok o.
Proof.
  intros [Hlen Hbytes]. unfold ObjectId_str.
  assert (H24 : length (hex o) = 24%nat) by (rewrite hex_length, Hlen; reflexivity).
  split; [exact H24|]. split; [now apply hex_lower|].
  unfold ObjectId_of_str. rewrite H24. cbn [Nat.eqb].
  now rewrite fromhex_hex.
Qed.

Lemma ObjectId_round_trip_witness :
  generated_id Sample.vase_id
  /\ length (ObjectId_str Sample.vase_id) = 24%nat
  /\ forallb is_lower_hex (ObjectId_str Sample.vase_id) = true
  /\ ObjectId_of_str (ObjectId_str Sample.vase_id) = Ok Sample.vase_id.
Proof.
  assert (H : generated_id Sample.vase_id).
  { split; [reflexivity | repeat constructor; lia]. }
  split; [exact H | apply (ObjectId_round_trip Sample.vase_id H)].
Defined.

(** An id that is not 24 characters long is answered 400, whatever the
    store holds. *)
Theorem get_artifact_wrong_length
    (regex_compile : pystr -> pystr -> option (pystr -> bool))
    (d : database) (artifact_id : pystr) :
  length artifact_id <> 24%nat ->
  get_artifact regex_compile (Some d) artifact_id
  = Raise (HTTPException 400 "Invalid artifact id").
Proof.
  intros Hlen. unfold get_artifact, ObjectId_of_str.
  apply Nat.eqb_neq in Hlen. rewrite Hlen. reflexivity.
Qed.

Lemma get_artifact_wrong_length_witness :
  length (u "652b12f0") <> 24%nat
  /\ get_artifact PCRE.compile (Some Sample.museum) (u "652b12f0")
     = Raise (HTTPException 400 "Invalid artifact id").
Proof.
  assert (H : length (u "652b12f0") <> 24%nat) by (simpl; lia).
  split; [exact H |
          apply (get_artifact_wrong_length PCRE.compile Sample.museum (u "652b12f0") H)].
Defined.

Lemma is_space_upper (c : Z) : is_space (ascii_upper c) = is_space c.
Proof.
  unfold ascii_upper. destruct (Z.leb_spec 97 c), (Z.leb_spec c 122);
    cbn [andb]; unfold is_space; zbool.
Qed.

Lemma hexval_upper (c : Z) : hexval (ascii_upper c) = hexval c.
Proof.
  unfold ascii_upper. destruct (Z.leb_spec 97 c), (Z.leb_spec c 122);
    cbn [andb]; unfold hexval; zbool; f_equal; lia.
Qed.

Lemma fromhex_upper (s : pystr) : fromhex (map ascii_upper s) = fromhex s.
Proof.
  assert (H : forall n s, (length s <= n)%nat ->
                          fromhex (map ascii_upper s) = fromhex s).
  { clear s. induction n as [|n IH]; intros [|c s] Hlen; try reflexivity.
    - cbn [length] in Hlen. lia.
    - cbn [length] in Hlen. cbn [map fromhex].
      rewrite is_space_upper, hexval_upper.
      destruct (is_space c); [apply IH; lia|].
      destruct (hexval c); [|reflexivity].
      destruct s as [|c' s]; [reflexivity|].
      cbn [length] in Hlen. cbn [map].
      rewrite hexval_upper, IH by lia. reflexivity. }
  now apply (H (length s)).
Qed.

(** The letter case of the hexadecimal digits of an id does not matter. *)
Theorem get_artifact_id_case
    (regex_compile : pystr -> pystr -> option (pystr -> bool))
    (db : option database) (artifact_id : pystr) :
  get_artifact regex_compile db (map ascii_upper artifact_id)
  = get_artifact regex_compile db artifact_id.
Proof.
  unfold get_artifact, ObjectId_of_str.
  now rewrite length_map, fromhex_upper.
Qed.

(** ** Fetching what is stored *)

Lemma to_public_id (d : document) (p : PublicArtifact.t) :
  to_public d = Ok p -> PublicArtifact.id p = ObjectId_str (_id d).
Proof.
  unfold to_public. intros H.
  destruct (validate_str "title" (doc_get d "title")); [|discriminate].
  destruct (validate_opt_str "description" (doc_get d "description")); [|discriminate].
  destruct (validate_opt_str "image_url" (doc_get d "image_url")); [|discriminate].
  destruct (validate_opt_str "period" (doc_get d "period")); [|discriminate].
  destruct (validate_opt_str "collection" (doc_get d "collection")); [|discriminate].
  destruct (validate_opt_list_str "tags" (doc_get d "tags")); [|discriminate].
  cbn [bind] in H. injection H as <-. reflexivity.
Qed.

Lemma matches_id (doc : document) (oid : ObjectId) :
  matches_eq (VOid oid) (doc_get doc "_id") && true = pystr_eqb (_id doc) oid.
Proof.
  unfold matches_eq, doc_get. cbn. now rewrite orb_false_r, andb_true_r.
Qed.

Lemma first_with_id (docs : list document) (doc : document) :
  unique_ids docs -> In doc docs ->
  hd_error (filter (fun x => pystr_eqb (_id x) (_id doc)) docs) = Some doc.
Proof.
  unfold unique_ids. induction docs as [|x docs IH]; intros Hnd Hin; [contradiction|].
  cbn [map] in Hnd. inversion Hnd as [|? ? Hx Hnd']; subst.
  cbn [filter]. destruct Hin as [->|Hin].
  - now rewrite pystr_eqb_refl.
  - destruct (pystr_eqb (_id x) (_id doc)) eqn:E.
    + apply pystr_eqb_eq in E. exfalso. apply Hx. rewrite E. now apply in_map.
    + now apply IH.
Qed.

Lemma get_by_stored_id
    (regex_compile : pystr -> pystr -> option (pystr -> bool))
    (d : database) (doc : document) :
  unique_ids (collection d "artifact") ->
  In doc (collection d "artifact") ->
  generated_id (_id doc) ->
  get_artifact regex_compile (Some d) (ObjectId_str (_id doc)) = to_public doc.
Proof.
  intros Huniq Hin Hgen.
  unfold get_artifact. rewrite (ObjectId_of_str_str (_id doc) Hgen).
  cbn [try_except bind]. rewrite find_one_eq.
  rewrite (filter_ext _ (fun x => pystr_eqb (_id x) (_id doc)))
    by (intros x; apply matches_id).
  rewrite (first_with_id _ doc Huniq Hin). reflexivity.
Qed.

(** Every stored artifact is fetched by the text of its id: when the ids of
    the collection are distinct, get-by-id on [str(doc["_id"])] answers with
    the public shape of [doc] itself. *)
Theorem get_artifact_stored
    (regex_compile : pystr -> pystr -> option (pystr -> bool))
    (d : database) (doc : document) :
  unique_ids (collection d "artifact") ->
  In doc (collection d "artifact") ->
  generated_id (_id doc) ->
  get_artifact regex_compile (Some d) (ObjectId_str (_id doc)) = to_public doc.
Proof. apply get_by_stored_id. Qed.

Lemma get_artifact_stored_witness :
  get_artifact PCRE.compile (Some Sample.museum) (ObjectId_str (_id Sample.coin))
  = to_public Sample.coin.
Proof.
  apply (get_artifact_stored PCRE.compile Sample.museum Sample.coin).
  - repeat constructor; cbn; intuition discriminate.
  - right. left. reflexivity.
  - split; [reflexivity | repeat constructor; lia].
Defined.

(** Get-by-id answers only with the artifact asked for: a successful answer
    is the public shape of a stored document whose id is the one parsed from
    the request, and carries that id in lowercase hexadecimal. *)
Theorem get_artifact_sound
    (regex_compile : pystr -> pystr -> option (pystr -> bool))
    (d : database) (artifact_id : pystr) (p : PublicArtifact.t) :
  get_artifact regex_compile (Some d) artifact_id = Ok p ->
  exists oid doc,
    ObjectId_of_str artifact_id = Ok oid
    /\ In doc (collection d "artifact")
    /\ _id doc = oid
    /\ to_public doc = Ok p
    /\ PublicArtifact.id p = ObjectId_str oid.
Proof.
  unfold get_artifact. intros H.
  destruct (ObjectId_of_str artifact_id) as [oid|e]; cbn [try_except bind] in H;
    [|discriminate].
  rewrite find_one_eq in H. cbn [bind] in H.
  destruct (filter _ _) as [|doc rest] eqn:E; cbn [hd_error] in H; [discriminate|].
  assert (Hin : In doc (doc :: rest)) by now left.
  rewrite <- E in Hin. apply filter_In in Hin as [Hin Hm].
  rewrite matches_id in Hm. apply pystr_eqb_eq in Hm.
  exists oid, doc. repeat split; auto.
  rewrite <- Hm. now apply to_public_id.
Qed.

Lemma get_artifact_sound_witness :
  exists oid doc,
    ObjectId_of_str (u "652B12F00000000000000002") = Ok oid
    /\ In doc (collection Sample.museum "artifact")
    /\ _id doc = oid
    /\ to_public doc
       = Ok (PublicArtifact.mk (u "652b12f00000000000000002") (u "Roman coin")
               None None None None None)
    /\ PublicArtifact.id
         (PublicArtifact.mk (u "652b12f00000000000000002") (u "Roman coin")
            None None None None None)
       = ObjectId_str oid.
Proof.
  apply (get_artifact_sound PCRE.compile Sample.museum
           (u "652B12F00000000000000002")).
  vm_compute. reflexivity.
Defined.

(** ** Signing in *)

(** Signin succeeds exactly when the first account with the submitted email
    stores, as text, the digest of the submitted password; it then returns
    the id, name and email of that account. *)
Theorem signin_success_iff
    (regex_compile : pystr -> pystr -> option (pystr -> bool))
    (d : database) (payload : SigninRequest.t) (who : Identity.t) :
  signin regex_compile (Some d) payload = Ok who
  <-> exists usr digest,
        find_one regex_compile d "useraccount"
          [Field "email" (CEq (VStr (SigninRequest.email payload)))] = Ok (Some usr)
        /\ hash_password (SigninRequest.password payload) = Ok digest
        /\ doc_get usr "password_hash" = VStr digest
        /\ who = Identity.mk (ObjectId_str (_id usr)) (doc_get usr "name")
                   (doc_get usr "email").
Proof.
  unfold signin. rewrite find_one_eq. cbn [bind].
  destruct (hd_error _) as [usr|]; split.
  - destruct (hash_password (SigninRequest.password payload)) as [digest|e];
      cbn [bind]; [|discriminate].
    destruct (value_eqb (doc_get usr "password_hash") (VStr digest)) eqn:E;
      cbn [negb]; [|discriminate].
    intros H. injection H as <-. apply value_eqb_str in E.
    exists usr, digest. auto.
  - intros (usr' & digest & Hu & Hh & Hp & ->). injection Hu as <-.
    rewrite Hh. cbn [bind].
    apply value_eqb_str in Hp. now rewrite Hp.
  - discriminate.
  - intros (usr & digest & Hu & _). discriminate.
Qed.

Lemma signin_success_iff_witness :
  signin PCRE.compile (Some Sample.museum)
    (SigninRequest.mk (u "a@x.com") (u "password"))
  = Ok (Identity.mk (ObjectId_str Sample.user_id) (VStr (u "A")) (VStr (u "a@x.com"))).
Proof.
  apply (proj2 (signin_success_iff PCRE.compile Sample.museum
                  (SigninRequest.mk (u "a@x.com") (u "password")) _)).
  exists Sample.account,
    (u "5e884898da28047151d0e56f8dc6292773603d0d6aabbdd62a11ef721d1542d8").
  repeat split; vm_compute; reflexivity.
Defined.

(** ** Signing up *)

Lemma assoc_set_collection_other (c c' : string) (docs : list document)
    (l : list (string * list document)) :
  String.eqb c' c = false -> assoc c' (set_collection c docs l) = assoc c' l.
Proof.
  intros Hne. induction l as [|[k ds] l IH]; cbn [set_collection assoc].
  - now rewrite Hne.
  - destruct (String.eqb c k) eqn:E; cbn [assoc].
    + apply String.eqb_eq in E. subst k. now rewrite Hne.
    + now rewrite IH.
Qed.

Lemma collection_insert_other (d : database) (c c' : string) (doc : document) :
  String.eqb c' c = false -> collection (insert_one d c doc) c' = collection d c'.
Proof.
  intros Hne. unfold insert_one, collection at 1. cbn [collections].
  now rewrite assoc_set_collection_other.
Qed.

Lemma signup_inserts
    (regex_compile : pystr -> pystr -> option (pystr -> bool))
    (d : database) (fresh : ObjectId) (name email password digest : pystr) :
  find_one regex_compile d "useraccount" [Field "email" (CEq (VStr email))]
  = Ok None ->
  hash_password password = Ok digest ->
  signup regex_compile (Some d) fresh (SignupRequest.mk name email password)
  = (Ok (Identity.mk (ObjectId_str fresh) (VStr name) (VStr email)),
     Some (insert_one d "useraccount" (account_doc fresh name email digest))).
Proof.
  intros Hnone Hhash. unfold signup.
  cbn [SignupRequest.email SignupRequest.password SignupRequest.name].
  rewrite Hnone, Hhash. reflexivity.
Qed.

Lemma signup_outcomes
    (regex_compile : pystr -> pystr -> option (pystr -> bool))
    (d : database) (fresh : ObjectId) (payload : SignupRequest.t) :
  (exists e, signup regex_compile (Some d) fresh payload = (Raise e, Some d))
  \/ (exists digest,
        find_one regex_compile d "useraccount"
          [Field "email" (CEq (VStr (SignupRequest.email payload)))] = Ok None
        /\ hash_password (SignupRequest.password payload) = Ok digest
        /\ signup regex_compile (Some d) fresh payload
           = (Ok (Identity.mk (ObjectId_str fresh) (VStr (SignupRequest.name payload))
                    (VStr (SignupRequest.email payload))),
              Some (insert_one d "useraccount"
                      (account_doc fresh (SignupRequest.name payload)
                         (SignupRequest.email payload) digest)))).
Proof.
  unfold signup.
  destruct (find_one regex_compile d "useraccount" _) as [[existing|]|e];
    [left; eauto | | left; eauto].
  destruct (hash_password (SignupRequest.password payload)) as [digest|e];
    [right; exists digest; repeat split | left; eauto].
Qed.

(** A successful signup appends one account document to the accounts, with
    the digest in place of the password, the role [user] and the active
    flag set, and leaves the artifact catalogue as it was. *)
Theorem signup_stores_account
    (regex_compile : pystr -> pystr -> option (pystr -> bool))
    (d : database) (fresh : ObjectId) (name email password : pystr) :
  Forall is_scalar password ->
  find_one regex_compile d "useraccount" [Field "email" (CEq (VStr email))]
  = Ok None ->
  exists who digest d',
    signup regex_compile (Some d) fresh (SignupRequest.mk name email password)
    = (Ok who, Some d')
    /\ hash_password password = Ok digest
    /\ collection d' "useraccount"
       = collection d "useraccount" ++ [account_doc fresh name email digest]
    /\ collection d' "artifact" = collection d "artifact"
    /\ db_name d' = db_name d.
Proof.
  intros Hpw Hnone. destruct (hash_password_total password Hpw) as [digest Hhash].
  rewrite (signup_inserts regex_compile d fresh name email password digest Hnone Hhash).
  eexists. exists digest. eexists. split; [reflexivity|]. split; [exact Hhash|].
  split; [apply collection_insert_one|].
  split; [now apply collection_insert_other | reflexivity].
Qed.

Lemma signup_stores_account_witness :
  exists who digest d',
    signup PCRE.compile (Some Sample.museum) Sample.next_id
      (SignupRequest.mk (u "B") (u "b@x.com") (u "pw1"))
    = (Ok who, Some d')
    /\ hash_password (u "pw1") = Ok digest
    /\ collection d' "useraccount"
       = collection Sample.museum "useraccount"
         ++ [account_doc Sample.next_id (u "B") (u "b@x.com") digest]
    /\ collection d' "artifact" = collection Sample.museum "artifact"
    /\ db_name d' = db_name Sample.museum.
Proof.
  apply (signup_stores_account PCRE.compile Sample.museum Sample.next_id
           (u "B") (u "b@x.com") (u "pw1")).
  - repeat constructor; unfold is_scalar; simpl; lia.
  - reflexivity.
Defined.

(** A signup that fails writes nothing: the store after it is the store
    before it. *)
Theorem signup_failure_writes_nothing
    (regex_compile : pystr -> pystr -> option (pystr -> bool))
    (d : database) (fresh : ObjectId) (payload : SignupRequest.t)
    (e : exn) (after : option database) :
  signup regex_compile (Some d) fresh payload = (Raise e, after) ->
  after = Some d.
Proof.
  intros H.
  destruct (signup_outcomes regex_compile d fresh payload)
    as [[e' He]|(digest & _ & _ & Hs)]; rewrite H in *; congruence.
Qed.

Lemma signup_failure_writes_nothing_witness :
  signup PCRE.compile (Some Sample.museum) Sample.next_id
    (SignupRequest.mk (u "B") (u "b@x.com") [56320])
  = (Raise UnicodeEncodeError, Some Sample.museum)
  /\ Some Sample.museum = Some Sample.museum.
Proof.
  assert (H : signup PCRE.compile (Some Sample.museum) Sample.next_id
                (SignupRequest.mk (u "B") (u "b@x.com") [56320])
              = (Raise UnicodeEncodeError, Some Sample.museum)) by reflexivity.
  split; [exact H|].
  exact (signup_failure_writes_nothing PCRE.compile Sample.museum Sample.next_id
           (SignupRequest.mk (u "B") (u "b@x.com") [56320]) UnicodeEncodeError
           (Some Sample.museum) H).
Defined.

Lemma find_one_after_insert
    (regex_compile : pystr -> pystr -> option (pystr -> bool))
    (d : database) (fresh : ObjectId) (name email digest : pystr) :
  find_one regex_compile d "useraccount" [Field "email" (CEq (VStr email))]
  = Ok None ->
  find_one regex_compile
    (insert_one d "useraccount" (account_doc fresh name email digest))
    "useraccount" [Field "email" (CEq (VStr email))]
  = Ok (Some (account_doc fresh name email digest)).
Proof.
  intros Hnone. rewrite find_one_eq in *. injection Hnone as Hnone.
  apply hd_error_filter_none in Hnone.
  rewrite collection_insert_one, filter_app, Hnone.
  cbn [app filter]. unfold matches_eq at 1, doc_get at 1.
  cbn [String.eqb Ascii.eqb Bool.eqb fields account_doc assoc value_eqb].
  rewrite pystr_eqb_refl. reflexivity.
Qed.

(** Once a signup has succeeded, every later signup with the same email is
    refused with 400, whatever name and password it carries, and writes
    nothing. *)
Theorem signup_twice
    (regex_compile : pystr -> pystr -> option (pystr -> bool))
    (d : database) (fresh : ObjectId) (name email password : pystr) :
  Forall is_scalar password ->
  find_one regex_compile d "useraccount" [Field "email" (CEq (VStr email))]
  = Ok None ->
  exists who d',
    signup regex_compile (Some d) fresh (SignupRequest.mk name email password)
    = (Ok who, Some d')
    /\ forall fresh2 name2 password2,
         signup regex_compile (Some d') fresh2
           (SignupRequest.mk name2 email password2)
         = (Raise (HTTPException 400 "Email already registered"), Some d').
Proof.
  intros Hpw Hnone. destruct (hash_password_total password Hpw) as [digest Hhash].
  rewrite (signup_inserts regex_compile d fresh name email password digest Hnone Hhash).
  eexists. eexists. split; [reflexivity|].
  intros fresh2 name2 password2. unfold signup. cbn [SignupRequest.email].
  rewrite (find_one_after_insert regex_compile d fresh name email digest Hnone).
  reflexivity.
Qed.

Lemma signup_twice_witness :
  exists who d',
    signup PCRE.compile (Some Sample.museum) Sample.next_id
      (SignupRequest.mk (u "B") (u "b@x.com") (u "pw1"))
    = (Ok who, Some d')
    /\ forall fresh2 name2 password2,
         signup PCRE.compile (Some d') fresh2
           (SignupRequest.mk name2 (u "b@x.com") password2)
         = (Raise (HTTPException 400 "Email already registered"), Some d').
Proof.
  apply (signup_twice PCRE.compile Sample.museum Sample.next_id
           (u "B") (u "b@x.com") (u "pw1")).
  - repeat constructor; unfold is_scalar; simpl; lia.
  - reflexivity.
Defined.

Lemma emails_insert (d : database) (fresh : ObjectId) (name email digest : pystr) :
  emails (insert_one d "useraccount" (account_doc fresh name email digest))
  = emails d ++ [VStr email].
Proof.
  unfold emails. rewrite collection_insert_one, map_app. reflexivity.
Qed.

Lemma no_match_not_in
    (regex_compile : pystr -> pystr -> option (pystr -> bool))
    (d : database) (email : pystr) :
  find_one regex_compile d "useraccount" [Field "email" (CEq (VStr email))]
  = Ok None ->
  ~ In (VStr email) (emails d).
Proof.
  intros Hnone Hin. rewrite find_one_eq in Hnone. injection Hnone as Hnone.
  apply hd_error_filter_none in Hnone.
  unfold emails in Hin. apply in_map_iff in Hin as (doc & Hdoc & Hin).
  assert (Hf : In doc (filter (fun doc => matches_eq (VStr email) (doc_get doc "email")
                                          && true)
                         (collection d "useraccount"))).
  { apply filter_In. split; [exact Hin|].
    unfold matches_eq. rewrite Hdoc. cbn [value_eqb]. now rewrite pystr_eqb_refl. }
  rewrite Hnone in Hf. contradiction.
Qed.

(** Signups made one after another keep the emails of the accounts
    pairwise distinct: if they are before a signup, they are after it,
    whether it succeeds or fails. *)
Theorem signup_keeps_emails_unique
    (regex_compile : pystr -> pystr -> option (pystr -> bool))
    (d d' : database) (fresh : ObjectId) (payload : SignupRequest.t)
    (r : result Identity.t) :
  unique_emails d ->
  signup regex_compile (Some d) fresh payload = (r, Some d') ->
  unique_emails d'.
Proof.
  intros [Htext Hnodup] Hs.
  destruct (signup_outcomes regex_compile d fresh payload)
    as [[e He]|(digest & Hnone & _ & Hok)].
  - rewrite He in Hs. injection Hs as _ <-. now split.
  - rewrite Hok in Hs. injection Hs as _ <-.
    unfold unique_emails. rewrite emails_insert. split.
    + apply Forall_app. split; [exact Htext|]. constructor; eauto.
    + apply NoDup_app; [exact Hnodup | repeat constructor; intros [] |].
      intros v Hv [<-|[]].
      now apply (no_match_not_in regex_compile d _ Hnone).
Qed.

Lemma signup_keeps_emails_unique_witness :
  unique_emails Sample.museum
  /\ signup PCRE.compile (Some Sample.museum) Sample.next_id
       (SignupRequest.mk (u "B") (u "b@x.com") (u "pw1"))
     = (Ok (Identity.mk (ObjectId_str Sample.next_id) (VStr (u "B"))
              (VStr (u "b@x.com"))),
        Some (insert_one Sample.museum "useraccount"
                (account_doc Sample.next_id (u "B") (u "b@x.com")
                   (u "c592df4a86933b92addc9842402ddf198c638ea9be58916ee6e3734e1e3152f8"))))
  /\ unique_emails
       (insert_one Sample.museum "useraccount"
          (account_doc Sample.next_id (u "B") (u "b@x.com")
             (u "c592df4a86933b92addc9842402ddf198c638ea9be58916ee6e3734e1e3152f8"))).
Proof.
  assert (H : unique_emails Sample.museum).
  { split; repeat constructor; [eexists; reflexivity | intros []]. }
  assert (Hs : signup PCRE.compile (Some Sample.museum) Sample.next_id
                 (SignupRequest.mk (u "B") (u "b@x.com") (u "pw1"))
               = (Ok (Identity.mk (ObjectId_str Sample.next_id) (VStr (u "B"))
                        (VStr (u "b@x.com"))),
                  Some (insert_one Sample.museum "useraccount"
                          (account_doc Sample.next_id (u "B") (u "b@x.com")
                             (u "c592df4a86933b92addc9842402ddf198c638ea9be58916ee6e3734e1e3152f8")))))
    by (vm_compute; reflexivity).
  split; [exact H|]. split; [exact Hs|].
  exact (signup_keeps_emails_unique PCRE.compile Sample.museum _ Sample.next_id
           _ _ H Hs).
Defined.

(** ** The diagnostic endpoint, field by field *)

(** The [database_url] and [database_name] fields say only whether the two
    environment variables hold a non-empty text: they depend on nothing
    else, an empty value counts as not set, and neither the values nor the
    name of the database appear. *)
Theorem test_database_env_flags
    (str_exn : exn -> pystr) (db : option database)
    (list_collection_names : result (list pystr))
    (getenv : string -> option pystr) :
  exists r,
    test_database str_exn db list_collection_names getenv = Ok r
    /\ Status.database_url r
       = Some (if is_set getenv "DATABASE_URL" then check_mark ++ u " Set"
               else cross_mark ++ u " Not Set")
    /\ Status.database_name r
       = Some (if is_set getenv "DATABASE_NAME" then check_mark ++ u " Set"
               else cross_mark ++ u " Not Set").
Proof.
  unfold is_set, test_database.
  destruct (getenv "DATABASE_URL"%string) as [x|]; [destruct (truthy x)|];
    (destruct (getenv "DATABASE_NAME"%string) as [y|]; [destruct (truthy y)|]);
    (destruct db as [d|]; [destruct list_collection_names as [names|e]|]);
    eexists; (split; [reflexivity|]); split; reflexivity.
Qed.

(** The response lists at most ten collection names, the first ones of the
    listing, and reports [Connected] exactly when the handle is set, even
    if the listing failed. *)
Theorem test_database_shape
    (str_exn : exn -> pystr) (db : option database)
    (list_collection_names : result (list pystr))
    (getenv : string -> option pystr) :
  exists r,
    test_database str_exn db list_collection_names getenv = Ok r
    /\ (length (Status.collections r) <= 10)%nat
    /\ Status.collections r
       = match db, list_collection_names with
         | Some _, Ok names => firstn 10 names
         | _, _ => []
         end
    /\ Status.connection_status r
       = match db with
         | Some _ => u "Connected"
         | None => u "Not Connected"
         end
    /\ Status.backend r = check_mark ++ u " Running".
Proof.
  destruct db as [d|]; [destruct list_collection_names as [names|e]|];
    (eexists; split; [reflexivity|]);
    cbn [Status.collections Status.connection_status Status.backend
         Status.set_database_url Status.set_database_name Status.set_database
         Status.set_collections Status.set_connection_status];
    (split; [|repeat split]); try apply firstn_le_length; cbn [length]; lia.
Qed.

(** ** The featured flag *)

(** With only the featured flag given, the filter keeps a document whose
    [featured] field is a boolean exactly when it equals the flag, and drops
    a document that has no [featured] field, whichever the flag. *)
Theorem featured_filter
    (regex_compile : pystr -> pystr -> option (pystr -> bool)) (flag : bool) :
  exists p,
    compile_filter regex_compile (build_filter None (Some flag)) = Some p
    /\ (forall d, absent d "featured" -> p d = false)
    /\ (forall d b, doc_get d "featured" = VBool b -> p d = Bool.eqb b flag).
Proof.
  eexists. split; [reflexivity|]. split.
  - intros d Ha. cbv beta. rewrite (absent_get d "featured" eq_refl Ha).
    reflexivity.
  - intros d b Hb. cbv beta. rewrite Hb. unfold matches_eq. cbn [value_eqb].
    now rewrite orb_false_r, andb_true_r.
Qed.

(** ** Artifacts that follow the schema *)

(** A document that stores an [Artifact] of the schema has a public shape:
    the same title, description, image, period, collection and tags under
    the text of its id; [featured] is not part of it. *)
Theorem artifact_public (oid : ObjectId) (a : Artifact.t) :
  to_public (mkDoc oid (Artifact.model_dump a))
  = Ok (PublicArtifact.mk (ObjectId_str oid) (Artifact.title a)
          (Artifact.description a) (Artifact.image_url a) (Artifact.period a)
          (Artifact.collection a) (Artifact.tags a)).
Proof.
  destruct a as [title description image_url period coll tags featured].
  unfold to_public, doc_get, Artifact.model_dump.
  cbn [String.eqb Ascii.eqb Bool.eqb fields assoc _id Artifact.title
       Artifact.description Artifact.image_url Artifact.period
       Artifact.collection Artifact.tags Artifact.featured].
  destruct description, image_url, period, coll, tags;
    cbn [Artifact.optional validate_str validate_opt_str validate_opt_list_str bind];
    rewrite ?traverse_validate_str; reflexivity.
Qed.

(** ** Which passwords have a digest *)

Lemma utf8_char_scalar (c : Z) (bs : list Z) : utf8_char c = Some bs -> is_scalar c.
Proof.
  unfold utf8_char, is_scalar.
  destruct (Z.ltb_spec c 0); [discriminate|].
  destruct (Z.ltb_spec c 128); [lia|].
  destruct (Z.ltb_spec c 2048); [lia|].
  destruct (Z.ltb_spec c 65536).
  - destruct (Z.leb_spec 55296 c), (Z.leb_spec c 57343); cbn [andb];
      try discriminate; lia.
  - destruct (Z.ltb_spec c 1114112); [lia | discriminate].
Qed.

Lemma encode_utf8_scalar (s : pystr) (bs : list Z) :
  encode_utf8 s = Some bs -> Forall is_scalar s.
Proof.
  revert bs. induction s as [|c s IH]; intros bs H; [constructor|].
  cbn [encode_utf8] in H.
  destruct (utf8_char c) as [b|] eqn:Ec; [|discriminate].
  destruct (encode_utf8 s) as [rest|]; [|discriminate].
  constructor; [eapply utf8_char_scalar; eauto | eapply IH; eauto].
Qed.

(** A password has a digest exactly when all its code points are Unicode
    scalar values; with a lone surrogate the call raises
    [UnicodeEncodeError]. *)
Theorem hash_password_defined (raw : pystr) :
  ((exists digest, hash_password raw = Ok digest) <-> Forall is_scalar raw)
  /\ (~ Forall is_scalar raw -> hash_password raw = Raise UnicodeEncodeError).
Proof.
  unfold hash_password. destruct (encode_utf8 raw) as [bs|] eqn:E.
  - pose proof (encode_utf8_scalar raw bs E) as Hs. split.
    + split; eauto.
    + intros Hn. contradiction.
  - split.
    + split; [intros [digest H]; discriminate|].
      intros Hs. destruct (encode_utf8_total raw Hs) as [bs Hbs]. congruence.
    + reflexivity.
Qed.

Lemma hash_password_defined_witness :
  hash_password [112; 56320] = Raise UnicodeEncodeError.
Proof.
  apply (proj2 (hash_password_defined [112; 56320])).
  intros H. inversion H as [|? ? _ H']. inversion H' as [|? ? Hc _].
  unfold is_scalar in Hc. lia.
Defined.

Lemma encode_utf8_ascii (s : pystr) :
  Forall (fun c => 0 <= c < 128) s -> encode_utf8 s = Some s.
Proof.
  induction 1 as [|c s Hc _ IH]; [reflexivity|].
  cbn [encode_utf8]. rewrite IH. unfold utf8_char.
  destruct (Z.ltb_spec c 0); [lia|]. destruct (Z.ltb_spec c 128); [|lia].
  reflexivity.
Qed.

(** The digest of an ASCII password is the SHA-256 of its characters taken
    as bytes. *)
Theorem hash_password_ascii (raw : pystr) :
  Forall (fun c => 0 <= c < 128) raw ->
  hash_password raw = Ok (SHA256.hexdigest raw).
Proof.
  intros H. unfold hash_password. now rewrite encode_utf8_ascii.
Qed.

Lemma hash_password_ascii_witness :
  Forall (fun c => 0 <= c < 128) (u "pw1")
  /\ hash_password (u "pw1") = Ok (SHA256.hexdigest (u "pw1")).
Proof.
  assert (H : Forall (fun c => 0 <= c < 128) (u "pw1"))
    by (repeat constructor; simpl; lia).
  split; [exact H | exact (hash_password_ascii (u "pw1") H)].
Defined.

(** ** What the list returns *)

Lemma traverse_Forall2 {A B} (f : A -> result B) (l : list A) (rs : list B) :
  traverse f l = Ok rs -> Forall2 (fun x y => f x = Ok y) l rs.
Proof.
  revert rs. induction l as [|x l IH]; intros rs H; cbn [traverse] in H.
  - injection H as <-. constructor.
  - destruct (f x) as [y|e] eqn:Ex; cbn [bind] in H; [|discriminate].
    destruct (traverse f l) as [ys|e]; cbn [bind] in H; [|discriminate].
    injection H as <-. constructor; auto.
Qed.

Lemma Forall2_sources {A B} (R : A -> B -> Prop) (l : list A) (rs : list B) :
  Forall2 R l rs -> Forall (fun y => exists x, In x l /\ R x y) rs.
Proof.
  induction 1 as [|x y l rs Hxy _ IH]; constructor.
  - exists x. split; [now left | exact Hxy].
  - eapply Forall_impl; [|exact IH].
    intros b (a & Ha & Hab). exists a. split; [now right | exact Hab].
Qed.

Lemma list_artifacts_sources
    (regex_compile : pystr -> pystr -> option (pystr -> bool))
    (d : database) (q : option pystr) (featured : option bool) (limit : Z)
    (results : list PublicArtifact.t) :
  list_artifacts regex_compile (Some d) q featured limit = Ok results ->
  exists p,
    compile_filter regex_compile (build_filter q featured) = Some p
    /\ Forall (fun r => exists doc,
                 In doc (collection d "artifact")
                 /\ p doc = true /\ to_public doc = Ok r) results.
Proof.
  unfold list_artifacts, get_documents, find. intros H.
  destruct (compile_filter regex_compile (build_filter q featured)) as [p|];
    cbn [bind] in H; [|discriminate].
  exists p. split; [reflexivity|].
  apply traverse_Forall2, Forall2_sources in H.
  eapply Forall_impl; [|exact H].
  intros r (doc & Hin & Hr). apply In_firstn, filter_In in Hin as [Hin Hp].
  exists doc. auto.
Qed.

(** The list returns nothing but stored artifacts that pass the filter:
    every result is the public shape of a document of the collection that
    the filter built from the request accepts. *)
Theorem list_artifacts_sound
    (regex_compile : pystr -> pystr -> option (pystr -> bool))
    (d : database) (q : option pystr) (featured : option bool) (limit : Z)
    (results : list PublicArtifact.t) :
  list_artifacts regex_compile (Some d) q featured limit = Ok results ->
  exists p,
    compile_filter regex_compile (build_filter q featured) = Some p
    /\ Forall (fun r => exists doc,
                 In doc (collection d "artifact")
                 /\ p doc = true /\ to_public doc = Ok r) results.
Proof. apply list_artifacts_sources. Qed.

Lemma list_artifacts_sound_witness :
  exists p,
    compile_filter PCRE.compile (build_filter (Some (u "china")) None) = Some p
    /\ Forall (fun r => exists doc,
                 In doc (collection Sample.museum "artifact")
                 /\ p doc = true /\ to_public doc = Ok r)
         [PublicArtifact.mk (u "652b12f00000000000000001") (u "Ming Vase")
            (Some (u "Porcelain, blue and white")) None None None
            (Some [u "ceramic"; u "China"])].
Proof.
  apply (list_artifacts_sound PCRE.compile Sample.museum (Some (u "china")) None 50).
  vm_compute. reflexivity.
Defined.

(** A non-empty query that the engine rejects as a pattern fails the whole
    list call, whatever is stored: the handler does not catch the failure. *)
Theorem list_artifacts_rejected_pattern
    (regex_compile : pystr -> pystr -> option (pystr -> bool))
    (d : database) (q : pystr) (featured : option bool) (limit : Z) :
  q <> [] ->
  regex_compile q (u "i") = None ->
  list_artifacts regex_compile (Some d) (Some q) featured limit
  = Raise OperationFailure.
Proof.
  intros Hq Hrej.
  assert (Ht : truthy q = true) by (destruct q; [contradiction | reflexivity]).
  unfold list_artifacts, get_documents, find, build_filter. rewrite Ht.
  cbn [app compile_filter compile_clause compile_or compile_cond].
  rewrite Hrej. reflexivity.
Qed.

Lemma list_artifacts_rejected_pattern_witness :
  u "vase(" <> []
  /\ PCRE.compile (u "vase(") (u "i") = None
  /\ list_artifacts PCRE.compile (Some Sample.museum) (Some (u "vase(")) None 50
     = Raise OperationFailure.
Proof.
  split; [discriminate|]. split; [reflexivity|].
  apply (list_artifacts_rejected_pattern PCRE.compile Sample.museum (u "vase(")
           None 50); [discriminate | reflexivity].
Defined.

(** Every artifact the list returns can be fetched by the id it is listed
    under, and get-by-id answers with the very same public shape, as long as
    the ids of the collection are generated ids, all distinct. *)
Theorem list_then_get
    (regex_compile : pystr -> pystr -> option (pystr -> bool))
    (d : database) (q : option pystr) (featured : option bool) (limit : Z)
    (results : list PublicArtifact.t) :
  unique_ids (collection d "artifact") ->
  Forall (fun doc => generated_id (_id doc)) (collection d "artifact") ->
  list_artifacts regex_compile (Some d) q featured limit = Ok results ->
  Forall (fun r => get_artifact regex_compile (Some d) (PublicArtifact.id r) = Ok r)
    results.
Proof.
  intros Huniq Hgen Hlist.
  destruct (list_artifacts_sources regex_compile d q featured limit results Hlist)
    as (p & _ & Hsrc).
  eapply Forall_impl; [|exact Hsrc].
  intros r (doc & Hin & _ & Hr).
  rewrite (to_public_id doc r Hr), <- Hr.
  apply get_by_stored_id; auto.
  rewrite Forall_forall in Hgen. now apply Hgen.
Qed.

Lemma list_then_get_witness :
  Forall (fun r => get_artifact PCRE.compile (Some Sample.museum)
                     (PublicArtifact.id r) = Ok r)
    [PublicArtifact.mk (u "652b12f00000000000000001") (u "Ming Vase")
       (Some (u "Porcelain, blue and white")) None None None
       (Some [u "ceramic"; u "China"]);
     PublicArtifact.mk (u "652b12f00000000000000002") (u "Roman coin")
       None None None None None].
Proof.
  apply (list_then_get PCRE.compile Sample.museum None None 50).
  - repeat constructor; cbn; intuition discriminate.
  - repeat constructor; lia.
  - vm_compute. reflexivity.
Defined.

Lemma filter_true {A} (l : list A) : filter (fun _ => true) l = l.
Proof.
  induction l as [|x l IH]; [reflexivity|]. cbn [filter]. now rewrite IH.
Qed.

(** With no query and no flag, a limit that covers the collection returns
    the whole catalogue in stored order, or fails on the first document
    that has no public shape. *)
Theorem list_artifacts_everything
    (regex_compile : pystr -> pystr -> option (pystr -> bool))
    (d : database) (limit : Z) :
  Z.of_nat (length (collection d "artifact")) <= limit ->
  list_artifacts regex_compile (Some d) None None limit
  = traverse to_public (collection d "artifact").
Proof.
  intros Hlimit. unfold list_artifacts, get_documents, find.
  cbn [build_filter app compile_filter bind].
  rewrite filter_true, firstn_all2 by lia. reflexivity.
Qed.

Lemma list_artifacts_everything_witness :
  Z.of_nat (length (collection Sample.attic "artifact")) <= 50
  /\ list_artifacts PCRE.compile (Some Sample.attic) None None 50
     = traverse to_public (collection Sample.attic "artifact").
Proof.
  assert (H : Z.of_nat (length (collection Sample.attic "artifact")) <= 50)
    by (simpl; lia).
  split; [exact H | exact (list_artifacts_everything PCRE.compile Sample.attic 50 H)].
Defined.

Lemma traverse_fails {A B} (f : A -> result B) (l : list A) (x : A) (e : exn) :
  In x l -> f x = Raise e -> exists e', traverse f l = Raise e'.
Proof.
  intros Hin Hx. induction l as [|y l IH]; [contradiction|].
  cbn [traverse]. destruct Hin as [->|Hin].
  - rewrite Hx. cbn [bind]. eauto.
  - destruct (f y); cbn [bind]; [|eauto].
    destruct (IH Hin) as [e' ->]. cbn [bind]. eauto.
Qed.

(** One stored document without a public shape fails the whole listing: no
    partial list is returned. *)
Theorem list_artifacts_all_or_nothing
    (regex_compile : pystr -> pystr -> option (pystr -> bool))
    (d : database) (limit : Z) (doc : document) (e : exn) :
  Z.of_nat (length (collection d "artifact")) <= limit ->
  In doc (collection d "artifact") ->
  to_public doc = Raise e ->
  exists e', list_artifacts regex_compile (Some d) None None limit = Raise e'.
Proof.
  intros Hlimit Hin Hbad. unfold list_artifacts, get_documents, find.
  cbn [build_filter app compile_filter bind].
  rewrite filter_true, firstn_all2 by lia.
  now apply (traverse_fails to_public _ doc e).
Qed.

Lemma list_artifacts_all_or_nothing_witness :
  exists e',
    list_artifacts PCRE.compile (Some Sample.attic) None None 50 = Raise e'.
Proof.
  apply (list_artifacts_all_or_nothing PCRE.compile Sample.attic 50 Sample.scrap
           (ValidationError "title")).
  - simpl. lia.
  - right. left. reflexivity.
  - reflexivity.
Defined.

(** ** Accounts do not disturb one another *)

Lemma pystr_eqb_neq (s t : pystr) : s <> t -> pystr_eqb s t = false.
Proof.
  intros Hne. destruct (pystr_eqb s t) eqn:E; [|reflexivity].
  apply pystr_eqb_eq in E. contradiction.
Qed.

(** A signup, successful or not, changes nothing for signins with another
    email: they get the answer they would have got before it. *)
Theorem signup_keeps_other_accounts
    (regex_compile : pystr -> pystr -> option (pystr -> bool))
    (d d' : database) (fresh : ObjectId) (up : SignupRequest.t)
    (r : result Identity.t) (inp : SigninRequest.t) :
  signup regex_compile (Some d) fresh up = (r, Some d') ->
  SigninRequest.email inp <> SignupRequest.email up ->
  signin regex_compile (Some d') inp = signin regex_compile (Some d) inp.
Proof.
  intros Hs Hne.
  destruct (signup_outcomes regex_compile d fresh up)
    as [[e He]|(digest & _ & _ & Hok)].
  - rewrite He in Hs. injection Hs as _ <-. reflexivity.
  - rewrite Hok in Hs. injection Hs as _ <-.
    unfold signin. rewrite !find_one_eq, collection_insert_one, filter_app.
    cbn [filter]. unfold matches_eq at 2, doc_get at 2.
    cbn [String.eqb Ascii.eqb Bool.eqb fields account_doc assoc value_eqb].
    rewrite pystr_eqb_neq by congruence.
    cbn [orb andb]. now rewrite app_nil_r.
Qed.

Lemma signup_keeps_other_accounts_witness :
  signin PCRE.compile
    (Some (insert_one Sample.museum "useraccount"
             (account_doc Sample.next_id (u "B") (u "b@x.com")
                (u "c592df4a86933b92addc9842402ddf198c638ea9be58916ee6e3734e1e3152f8"))))
    (SigninRequest.mk (u "a@x.com") (u "password"))
  = signin PCRE.compile (Some Sample.museum)
      (SigninRequest.mk (u "a@x.com") (u "password")).
Proof.
  apply (signup_keeps_other_accounts PCRE.compile Sample.museum _ Sample.next_id
           (SignupRequest.mk (u "B") (u "b@x.com") (u "pw1"))
           (Ok (Identity.mk (ObjectId_str Sample.next_id) (VStr (u "B"))
                  (VStr (u "b@x.com"))))).
  - vm_compute. reflexivity.
  - vm_compute. discriminate.
Defined.

(** ** Binary values *)

Example decode_utf8_widths :
  decode_utf8 [195; 169; 226; 130; 172; 240; 159; 152; 128]
  = Some [233; 8364; 128512].
Proof. reflexivity. Qed.

(** An overlong form, a surrogate, a stray continuation byte and a cut
    sequence do not decode. *)
Example decode_utf8_strict :
  decode_utf8 [192; 128] = None
  /\ decode_utf8 [237; 160; 128] = None
  /\ decode_utf8 [128] = None
  /\ decode_utf8 [226; 130] = None.
Proof. repeat split. Qed.

(** A title stored as bytes is decoded on the way out. *)
Example to_public_binary_title :
  to_public (mkDoc Sample.coin_id [("title"%string, VBinary [99; 97; 102; 195; 169])])
  = Ok (PublicArtifact.mk (u "652b12f00000000000000002") [99; 97; 102; 233]
          None None None None None).
Proof. reflexivity. Qed.
